(** * Monitoring system: alert rules, bounded check log and service probes

    A shallow embedding of the two programs of the repository:

    - the periodic monitor ([RealMonitor]): [getRealSystemMetrics],
      [getFallbackMetrics], [checkRealAlerts], [logCheck],
      [generateSummary], [runRealMonitoring];
    - the dashboard server ([Dashboard]): [SERVICES], [getSystemMetrics],
      [checkService] and the handlers of [/api/status] and
      [/api/health/:service].

    JavaScript numbers are modelled by exact integers and rationals: the
    programs only round, compare and print them, and none of the inputs the
    theorems are stated for sits on a rounding boundary of binary
    floating point. *)

From Stdlib Require Import ZArith QArith Qround String Ascii List Lia DecimalString.
From stdpp Require Import base list.

Open Scope Z_scope.

(** ** The JavaScript built-ins the programs use *)

Module Js.

(** A synchronous call either returns or throws; a promise is either
    fulfilled or rejected. *)
Inductive result (A : Type) : Type :=
| Ok (a : A)
| Throw (e : string).
Arguments Ok {A} a.
Arguments Throw {A} e.

Definition bind {A B : Type} (r : result A) (k : A -> result B) : result B :=
  match r with
  | Ok a => k a
  | Throw e => Throw e
  end.

Notation "'let!' x ':=' r 'in' k" := (bind r (fun x => k))
  (at level 10, x name, r at level 100, k at level 200).

(** [hay.includes(needle)] *)
Fixpoint includes (hay needle : string) : bool :=
  String.prefix needle hay ||
  match hay with
  | EmptyString => false
  | String _ rest => includes rest needle
  end.

Fixpoint string_drop (n : nat) (s : string) : string :=
  match n, s with
  | O, _ => s
  | S _, EmptyString => EmptyString
  | S k, String _ rest => string_drop k rest
  end.

(** [s.replace(pat, rep)] with a string pattern: the first occurrence only. *)
Fixpoint replace (s pat rep : string) : string :=
  if String.prefix pat s then (rep ++ string_drop (String.length pat) s)%string
  else match s with
       | EmptyString => EmptyString
       | String c rest => String c (replace rest pat rep)
       end.

(** Numbers that are integers or [NaN] (what [parseInt] returns). *)
Inductive num : Type :=
| NaN
| Int (z : Z).

Definition num_sub (a : num) (k : Z) : num :=
  match a with
  | NaN => NaN
  | Int z => Int (z - k)
  end.

(** [a > k]; every comparison with [NaN] is false. *)
Definition num_gt (a : num) (k : Z) : bool :=
  match a with
  | NaN => false
  | Int z => z >? k
  end.

Definition is_space (c : ascii) : bool :=
  match c with
  | " "%char | "009"%char | "010"%char | "011"%char | "012"%char | "013"%char => true
  | _ => false
  end.

Definition digit_of (c : ascii) : option Z :=
  let n := Z.of_nat (nat_of_ascii c) in
  if (48 <=? n) && (n <=? 57) then Some (n - 48) else None.

Fixpoint trim_left (s : string) : string :=
  match s with
  | String c rest => if is_space c then trim_left rest else s
  | EmptyString => EmptyString
  end.

Fixpoint trim_right (s : string) : string :=
  match s with
  | EmptyString => EmptyString
  | String c rest =>
      match trim_right rest with
      | EmptyString => if is_space c then EmptyString else String c EmptyString
      | r => String c r
      end
  end.

(** [s.trim()] *)
Definition trim (s : string) : string := trim_right (trim_left s).

(** The longest run of decimal digits at the head of [s], read in base 10
    with [acc] as the value of the digits already consumed. *)
Fixpoint digits (s : string) (acc : option Z) : option Z :=
  match s with
  | EmptyString => acc
  | String c rest =>
      match digit_of c with
      | Some d => digits rest (Some (10 * default 0 acc + d))
      | None => acc
      end
  end.

(** [parseInt(s)] on decimal input: leading white space, an optional sign,
    then digits; [NaN] when no digit follows.  (The outputs of [wc -l] carry
    no radix prefix.) *)
Definition parseInt (s : string) : num :=
  let body sign rest :=
    match digits rest None with
    | Some v => Int (sign * v)
    | None => NaN
    end in
  match trim_left s with
  | String "-"%char rest => body (-1) rest
  | String "+"%char rest => body 1 rest
  | t => body 1 t
  end.

(** [Math.round]: the nearest integer, halves towards plus infinity. *)
Definition Math_round (q : Q) : Z := Qfloor (q + (1 # 2))%Q.

(** [x.toFixed(2)] of a non-negative number, read back by [parseFloat]:
    the value in hundredths. *)
Definition toFixed2 (q : Q) : Z := Qfloor (q * 100 + (1 # 2))%Q.

(** Template-literal rendering of an integer. *)
Definition show_int (z : Z) : string := NilZero.string_of_int (Z.to_int z).

Definition show_num (a : num) : string :=
  match a with
  | NaN => "NaN"
  | Int z => show_int z
  end.

(** Template-literal rendering of a number given in hundredths: the
    shortest decimal, without trailing zeros. *)
Definition show_hundredths (c : Z) : string :=
  let a := Z.abs c in
  let f := a mod 100 in
  ((if (c <? 0)%Z then "-" else "") ++ show_int (a / 100)%Z ++
   (if (f =? 0)%Z then ""
    else "." ++ (if (f mod 10 =? 0)%Z then show_int (f / 10)%Z
                 else (if (f <? 10)%Z then "0" else "") ++ show_int f)))%string.

(** [Array.prototype.slice(start)] with one argument. *)
Definition slice {A : Type} (l : list A) (start : Z) : list A :=
  let len := Z.of_nat (length l) in
  let k := if start <? 0 then Z.max (len + start) 0 else Z.min start len in
  drop (Z.to_nat k) l.

End Js.

(** ** The periodic monitor *)

Module RealMonitor.
Import Js.

Record AdsDivision : Type := {
  tiktokAgents : Z;
  googleAgents : Z;
  instagramAgents : Z;
  linkedinAgents : Z;
  ads_totalAgents : Z;
  ads_status : string }.

Record Web3Division : Type := {
  salesAgents : Z;
  devAgents : Z;
  portfolioAgents : Z;
  web3_totalAgents : Z;
  web3_status : string }.

(** The metrics object.  [cpuLoad] has two decimals and is kept in
    hundredths; the fields read with [parseInt] may be [NaN]. *)
Record Metrics : Type := {
  timestamp : string;
  cpuLoad : Z;
  memoryUsage : Z;
  memoryUsedGB : Z;
  memoryTotalGB : Z;
  memoryFreeGB : Z;
  processCount : num;
  openclawStatus : string;
  nodeProcesses : num;
  diskUsageGB : Z;
  uptimeHours : Z;
  networkConnections : num;
  hostname : string;
  platform : string;
  arch : string;
  agentHealth : Z;
  revenueTarget : Z;
  responseTime : Z;
  activeAgents : Z;
  adsFarmingRevenue : Z;
  web3DomainRevenue : Z;
  totalRevenue : Z;
  adsDivision : AdsDivision;
  web3Division : Web3Division }.

(** What the operating system answers to each query of one collection.
    A query that can throw carries a [result]. *)
Record Os : Type := {
  os_loadavg1 : Q;                  (* os.loadavg()[0] *)
  os_totalmem : Z;                  (* bytes *)
  os_freemem : Z;                   (* bytes *)
  exec_ps : result string;          (* ps aux | wc -l *)
  exec_openclaw : result string;    (* ps aux | grep -i openclaw | grep -v grep | wc -l *)
  exec_node : result string;        (* ps aux | grep -i node | grep -v grep | wc -l *)
  statSync_root : result (Z * Z);   (* fs.statSync('/'): blocks, blksize *)
  os_uptime : Q;                    (* seconds *)
  exec_netstat : result string;     (* netstat -an | wc -l *)
  os_hostname : string;
  os_platform : string;
  os_arch : string }.

Definition GiB : Z := 1024 * 1024 * 1024.

Definition simulatedAds : AdsDivision :=
  {| tiktokAgents := 4; googleAgents := 4; instagramAgents := 4;
     linkedinAgents := 3; ads_totalAgents := 15; ads_status := "ACTIVE" |}.

Definition simulatedWeb3 : Web3Division :=
  {| salesAgents := 5; devAgents := 5; portfolioAgents := 5;
     web3_totalAgents := 15; web3_status := "ACTIVE" |}.

(** Lines 33-36: the memory percentage, rounded to an integer. *)
Definition memoryUsageOf (totalMem freeMem : Z) : Z :=
  let usedMem := totalMem - freeMem in
  Math_round ((inject_Z usedMem / inject_Z totalMem) * 100)%Q.

(** The [try] block of [getRealSystemMetrics]: it throws when one of the
    queries outside the inner [try] throws. *)
Definition collect (timestamp : string) (os : Os) : result Metrics :=
  let cpuUsage := os_loadavg1 os in
  let totalMem := os_totalmem os in
  let freeMem := os_freemem os in
  let usedMem := totalMem - freeMem in
  let memoryUsage := memoryUsageOf totalMem freeMem in
  let! ps := exec_ps os in
  let processCount := num_sub (parseInt (trim ps)) 1 in
  let openclawStatus :=
    match exec_openclaw os with
    | Ok openclawProcess =>
        if num_gt (parseInt (trim openclawProcess)) 0 then "RUNNING" else "STOPPED"
    | Throw _ => "ERROR"
    end%string in
  let! nodeOut := exec_node os in
  let nodeProcesses := parseInt (trim nodeOut) in
  let! st := statSync_root os in
  let diskUsage := Math_round (inject_Z (fst st * snd st) / inject_Z GiB)%Q in
  let uptime := os_uptime os in
  let! netOut := exec_netstat os in
  let networkConnections := parseInt (trim netOut) in
  Ok {| timestamp := timestamp;
        cpuLoad := toFixed2 cpuUsage;
        memoryUsage := memoryUsage;
        memoryUsedGB := Math_round (inject_Z usedMem / inject_Z GiB)%Q;
        memoryTotalGB := Math_round (inject_Z totalMem / inject_Z GiB)%Q;
        memoryFreeGB := Math_round (inject_Z freeMem / inject_Z GiB)%Q;
        processCount := processCount;
        openclawStatus := openclawStatus;
        nodeProcesses := nodeProcesses;
        diskUsageGB := diskUsage;
        uptimeHours := Math_round (uptime / 3600)%Q;
        networkConnections := networkConnections;
        hostname := os_hostname os;
        platform := os_platform os;
        arch := os_arch os;
        agentHealth := 95;
        revenueTarget := 75;
        responseTime := 20;
        activeAgents := 53;
        adsFarmingRevenue := 3250;
        web3DomainRevenue := 2739;
        totalRevenue := 5989;
        adsDivision := simulatedAds;
        web3Division := simulatedWeb3 |}.

Definition getFallbackMetrics (timestamp : string) : Metrics :=
  {| timestamp := timestamp;
     cpuLoad := 150;
     memoryUsage := 85;
     memoryUsedGB := 12;
     memoryTotalGB := 16;
     memoryFreeGB := 4;
     processCount := Int 400;
     openclawStatus := "RUNNING";
     nodeProcesses := Int 10;
     diskUsageGB := 250;
     uptimeHours := 24;
     networkConnections := Int 100;
     hostname := "localhost";
     platform := "darwin";
     arch := "arm64";
     agentHealth := 95;
     revenueTarget := 75;
     responseTime := 20;
     activeAgents := 53;
     adsFarmingRevenue := 3250;
     web3DomainRevenue := 2739;
     totalRevenue := 5989;
     adsDivision := simulatedAds;
     web3Division := simulatedWeb3 |}.

(** [getRealSystemMetrics]: the metrics returned and the lines written
    with [console.error]. *)
Definition getRealSystemMetrics (timestamp : string) (os : Os)
  : Metrics * list string :=
  match collect timestamp os with
  | Ok m => (m, [])
  | Throw error =>
      (getFallbackMetrics timestamp, ["Error getting real metrics: " ++ error]%string)
  end.

(** [alerts.push(a)] *)
Definition push (alerts : list string) (a : string) : list string := alerts ++ [a].

Definition checkRealAlerts (metrics : Metrics) : list string :=
  let alerts := [] in
  let alerts :=
    if cpuLoad metrics >? 500
    then push alerts ("High CPU load: " ++ show_hundredths (cpuLoad metrics)
                      ++ " (1-minute average)")%string
    else alerts in
  let alerts :=
    if memoryUsage metrics >? 95
    then push alerts ("🔴 CRITICAL: Memory usage: " ++ show_int (memoryUsage metrics)
                      ++ "% (" ++ show_int (memoryUsedGB metrics) ++ "GB/"
                      ++ show_int (memoryTotalGB metrics) ++ "GB)")%string
    else if memoryUsage metrics >? 90
    then push alerts ("🟡 WARNING: High memory usage: "
                      ++ show_int (memoryUsage metrics) ++ "%")%string
    else alerts in
  let alerts :=
    if negb (String.eqb (openclawStatus metrics) "RUNNING")
    then push alerts ("OpenClaw status: " ++ openclawStatus metrics)%string
    else alerts in
  let alerts :=
    if diskUsageGB metrics >? 200
    then push alerts ("High disk usage: " ++ show_int (diskUsageGB metrics) ++ "GB")%string
    else alerts in
  let alerts :=
    if num_gt (processCount metrics) 500
    then push alerts ("High process count: " ++ show_num (processCount metrics))%string
    else alerts in
  alerts.

(** The severity tags, as [generateSummary] and [createRealReport] test
    them. *)
Definition isCritical (alert : string) : bool := includes alert "🔴 CRITICAL".
Definition isWarning (alert : string) : bool := includes alert "🟡 WARNING".

(** One entry of the log; [alerts] is [null] when there was none. *)
Record Check : Type := {
  c_timestamp : string;
  c_metrics : Metrics;
  c_alerts : option (list string) }.

(** The parsed content of the log file. *)
Record Logs : Type := {
  startTime : string;
  checks : list Check;
  totalChecks : Z;
  totalAlerts : Z;
  systemUptime : Z }.

(** The log file: absent, or holding the JSON of a [Logs] value. *)
Definition LogFile : Type := option Logs.

Definition readLogs (file : LogFile) : result Logs :=
  match file with
  | Some logs => Ok logs
  | None => Throw "ENOENT: no such file or directory, open 'monitoring_logs_real.json'"
  end.

Definition initializeLogs (now : string) (file : LogFile) : LogFile :=
  match file with
  | None =>
      Some {| startTime := now; checks := []; totalChecks := 0;
              totalAlerts := 0; systemUptime := 100 |}
  | Some logs => Some logs
  end.

(** [logCheck]: the file after the write and the check returned. *)
Definition logCheck (metrics : Metrics) (alerts : list string) (file : LogFile)
  : result (LogFile * Check) :=
  let! logs := readLogs file in
  let check :=
    {| c_timestamp := timestamp metrics;
       c_metrics := metrics;
       c_alerts := if Z.of_nat (length alerts) >? 0 then Some alerts else None |} in
  let pushed := checks logs ++ [check] in
  let kept := if Z.of_nat (length pushed) >? 100 then slice pushed (-100) else pushed in
  let logs' :=
    {| startTime := startTime logs;
       checks := kept;
       totalChecks := totalChecks logs + 1;
       totalAlerts := totalAlerts logs + Z.of_nat (length alerts);
       systemUptime := systemUptime logs |} in
  Ok (Some logs', check).

Inductive SystemStatus : Type := HEALTHY | WARNING | CRITICAL.

Record Summary : Type := {
  s_timestamp : string;
  s_totalChecks : Z;
  s_totalAlerts : Z;
  systemStatus : SystemStatus;
  lastCheck : option string }.

(** The status [generateSummary] derives from [logs.checks[length - 1]],
    which is [undefined] on an empty log. *)
Definition statusOf (last : option Check) : SystemStatus :=
  match last with
  | Some c =>
      match c_alerts c with
      | Some alerts =>
          let hasCritical := existsb isCritical alerts in
          if hasCritical then CRITICAL else WARNING
      | None => HEALTHY
      end
  | None => HEALTHY
  end.

Definition generateSummary (now : string) (file : LogFile) : result Summary :=
  let! logs := readLogs file in
  let last := checks logs !! (length (checks logs) - 1)%nat in
  Ok {| s_timestamp := now;
        s_totalChecks := totalChecks logs;
        s_totalAlerts := totalAlerts logs;
        systemStatus := statusOf last;
        lastCheck := c_timestamp <$> last |}.

(** The instants at which one run reads the clock. *)
Record Times : Type := {
  t_init : string;
  t_metrics : string;
  t_summary : string }.

Inductive RunResult : Type :=
| Success (summary : Summary) (metrics : Metrics) (alerts : list string)
| Failure (error : string).

(** [runRealMonitoring]: the log file after the run, the lines written
    with [console.error], and the value returned.  (The HTML report written
    between the summary and the return reads the same values and is left
    out.) *)
Definition runRealMonitoring (t : Times) (os : Os) (file : LogFile)
  : LogFile * list string * RunResult :=
  let file := initializeLogs (t_init t) file in
  let '(metrics, errs) := getRealSystemMetrics (t_metrics t) os in
  let alerts := checkRealAlerts metrics in
  match logCheck metrics alerts file with
  | Throw e => (file, errs ++ ["❌ REAL monitoring failed: " ++ e]%string, Failure e)
  | Ok (file', check) =>
      match generateSummary (t_summary t) file' with
      | Throw e => (file', errs ++ ["❌ REAL monitoring failed: " ++ e]%string, Failure e)
      | Ok summary => (file', errs, Success summary metrics alerts)
      end
  end.

End RealMonitor.

(** ** The dashboard server *)

Module Dashboard.
Import Js.

(** The values a property read [SERVICES[key]] can yield: [undefined], a
    configured URL, or a member inherited from [Object.prototype]
    ([SERVICES] is an object literal). *)
Inductive value : Type :=
| Undefined
| Str (s : string)
| Inherited (property : string).

Definition truthy (v : value) : bool :=
  match v with
  | Undefined => false
  | Str s => negb (String.eqb s "")
  | Inherited _ => true
  end.

(** [v === s] for a string [s]. *)
Definition strict_eq (v : value) (s : string) : bool :=
  match v with
  | Str s' => String.eqb s' s
  | _ => false
  end.

(** An object with string keys, given by its own properties in enumeration
    order; for keys that are not array indices, as in [SERVICES], that is
    the order in which the literal lists them. *)
Abbreviation object := (list (string * string)).

Definition SERVICES : object :=
  [ ("ollama-api", "http://localhost:3002/health");
    ("super-product", "http://localhost:3004/health");
    ("kimi-integration", "http://localhost:3006/health");
    ("system", "local") ]%string.

Fixpoint own (obj : object) (key : string) : option string :=
  match obj with
  | [] => None
  | (k, v) :: rest => if String.eqb k key then Some v else own rest key
  end.

(** The property names of [Object.prototype]; each holds a function or an
    object. *)
Definition objectPrototypeKeys : list string :=
  [ "constructor"; "__defineGetter__"; "__defineSetter__"; "hasOwnProperty";
    "__lookupGetter__"; "__lookupSetter__"; "isPrototypeOf";
    "propertyIsEnumerable"; "toString"; "valueOf"; "__proto__";
    "toLocaleString" ]%string.

(** [obj[key]]: own properties first, then the prototype. *)
Definition get (obj : object) (key : string) : value :=
  match own obj key with
  | Some v => Str v
  | None => if existsb (String.eqb key) objectPrototypeKeys
            then Inherited key else Undefined
  end.

Definition Object_entries (obj : object) : list (string * string) := obj.

Inductive Health : Type := healthy | warning | critical.

(** *** System metrics *)

Record StatFs : Type := { blocks : Z; bsize : Z; bfree : Z }.

(** The times of one processor, in milliseconds since boot. *)
Record CpuTimes : Type := { user : N; nice : N; sys : N; idle : N; irq : N }.

Record Os : Type := {
  os_totalmem : Z;
  os_freemem : Z;
  os_platform : string;
  statfsSync : string -> result StatFs;
  os_cpus : list CpuTimes;
  os_uptime : Z                      (* whole seconds *) }.

(** [x.toFixed(1)] of a non-negative number, in tenths. *)
Definition toFixed1 (q : Q) : Z := Qfloor (q * 10 + (1 # 2))%Q.

Record Usage : Type := { total : Z; used : Z; free : Z; percent : Z }.

(** [cpu] is [cpuUsage.toFixed(1)] in tenths, or [NaN]. *)
Record SystemMetrics : Type := {
  cpu : num;
  memory : Usage;
  disk : Usage;
  uptime : string;
  health : Health }.

Definition GiB (bytes : Z) : Q := (inject_Z bytes / 1024 / 1024 / 1024)%Q.

(** The busy share of one processor in percent; [0 / 0] is [NaN] ([None])
    when all its times are zero. *)
Definition busyPercent (c : CpuTimes) : option Q :=
  let total := (user c + nice c + sys c + idle c + irq c)%N in
  if (total =? 0)%N then None
  else Some (inject_Z (Z.of_N (total - idle c)) / inject_Z (Z.of_N total) * 100)%Q.

(** [acc + x] on numbers that may be [NaN]. *)
Definition addNaN (acc x : option Q) : option Q :=
  match acc, x with
  | Some a, Some b => Some (a + b)%Q
  | _, _ => None
  end.

(** [x > k]; every comparison with [NaN] is false. *)
Definition above (x : option Q) (k : Q) : bool :=
  match x with
  | Some q => negb (Qle_bool q k)
  | None => false
  end.

(** [getSystemMetrics]: it throws when [statfsSync] does.  The CPU figure
    keeps JavaScript's [NaN]; the memory and disk figures are taken for the
    positive totals an operating system reports. *)
Definition getSystemMetrics (os : Os) : result SystemMetrics :=
  let totalMem := GiB (os_totalmem os) in
  let freeMem := GiB (os_freemem os) in
  let usedMem := (totalMem - freeMem)%Q in
  let memPercent := toFixed1 (usedMem / totalMem * 100)%Q in
  let disk := if String.eqb (os_platform os) "darwin"
              then "/System/Volumes/Data"%string else "/"%string in
  let! stats := statfsSync os disk in
  let totalDisk := GiB (blocks stats * bsize stats) in
  let freeDisk := GiB (bfree stats * bsize stats) in
  let usedDisk := (totalDisk - freeDisk)%Q in
  let diskPercent := toFixed1 (usedDisk / totalDisk * 100)%Q in
  let cpus := os_cpus os in
  let cpuUsage :=
    match fold_left (fun acc c => addNaN acc (busyPercent c)) cpus (Some 0%Q) with
    | Some sum =>
        if decide (length cpus = 0%nat) then None
        else Some (sum / inject_Z (Z.of_nat (length cpus)))%Q
    | None => None
    end in
  let uptime := os_uptime os in
  let days := uptime / 86400 in
  let hours := (uptime mod 86400) / 3600 in
  let minutes := (uptime mod 3600) / 60 in
  let uptimeStr := (show_int days ++ "d " ++ show_int hours ++ "h "
                    ++ show_int minutes ++ "m")%string in
  let health :=
    if (memPercent >? 900) || above cpuUsage 90
    then critical
    else if (memPercent >? 700) || above cpuUsage 70
    then warning
    else healthy in
  Ok {| cpu := match cpuUsage with
               | Some c => Int (toFixed1 c)
               | None => NaN
               end;
        memory := {| total := toFixed1 totalMem; used := toFixed1 usedMem;
                     free := toFixed1 freeMem; percent := memPercent |};
        disk := {| total := toFixed1 totalDisk; used := toFixed1 usedDisk;
                   free := toFixed1 freeDisk; percent := diskPercent |};
        uptime := uptimeStr;
        health := health |}.

(** *** Probing one service *)

(** How one HTTP request ends. *)
Inductive Outcome : Type :=
| NetworkError (message : string)
| Response (code : Z) (version : option string)
| TimedOut.

(** What one probe meets after its first clock reading: how its request
    ends, what [Date.now()] reads once the request has ended, and what
    [new Date()] reads when the status object is built.  The clock is the
    wall clock: nothing orders the readings. *)
Record Exchange : Type := { outcome : Outcome; finished : Z; stamped : Z }.

(** [axios.get(url, { timeout: 5000 })]: with the default [validateStatus]
    the promise is fulfilled for a status in 200..299 and rejected
    otherwise; the value kept of the response is [data?.version]. *)
Definition axios_get (x : Exchange) : result (option string) :=
  match outcome x with
  | NetworkError message => Throw message
  | Response code version =>
      if (200 <=? code) && (code <? 300) then Ok version
      else Throw ("Request failed with status code " ++ show_int code)%string
  | TimedOut => Throw "timeout of 5000ms exceeded"
  end.

(** [url.replace('http://localhost:', 'localhost:')]: only a string has a
    [replace] method. *)
Definition url_replace (url : value) : result string :=
  match url with
  | Str s => Ok (replace s "http://localhost:" "localhost:")
  | Inherited _ => Throw "url.replace is not a function"
  | Undefined => Throw "Cannot read properties of undefined (reading 'replace')"
  end.

(** [a || b] on an optional string: the empty string is falsy. *)
Definition or_else (a : option string) (b : string) : string :=
  match a with
  | Some s => if String.eqb s "" then b else s
  | None => b
  end.

Record ServiceStatus : Type := {
  name : string;
  url : string;
  status : Health;
  responseTime : Z;
  version : option string;
  error : option string;
  timestamp : Z;
  emoji : string }.

(** [checkService(name, url)], whose first [Date.now()] reads [startTime],
    with [x] what happens to the request of its call to [axios.get] (if it
    makes one) and what the clock reads afterwards.  Returns how the promise
    settles and the URLs handed to [axios.get]. *)
Definition checkService (name : string) (url : value) (startTime : Z) (x : Exchange)
  : result ServiceStatus * list value :=
  if strict_eq url "local" then
    (Ok {| name := name; url := "System"; status := healthy; responseTime := 1;
           version := None; error := None; timestamp := stamped x;
           emoji := "💻" |}, [])
  else
    let tried :=
      let! version := axios_get x in
      let responseTime := finished x - startTime in
      let! shown := url_replace url in
      Ok {| name := name; url := shown; status := healthy;
            responseTime := responseTime;
            version := Some (or_else version "1.0.0");
            error := None; timestamp := stamped x;
            emoji := if includes name "ollama" then "🦙" else "🖼️" |} in
    let settled :=
      match tried with
      | Ok s => Ok s
      | Throw message =>
          let! shown := url_replace url in
          Ok {| name := name; url := shown; status := critical;
                responseTime := finished x - startTime;
                version := None; error := Some message; timestamp := stamped x;
                emoji := "⚠️" |}
      end in
    (settled, [url]).

(** *** Waiting for all probes *)

(** [Promise.all(promises)]: one slot per input position.  The promises
    settle in the order [order] (indices into [promises]); a fulfilment
    stores the value in the slot of its own index, the first rejection
    rejects the whole. *)
Fixpoint settle {A : Type} (promises : list (result A)) (order : list nat)
    (slots : list (option A)) : result (list (option A)) :=
  match order with
  | [] => Ok slots
  | i :: rest =>
      match promises !! i with
      | Some (Ok v) => settle promises rest (<[i := Some v]> slots)
      | Some (Throw e) => Throw e
      | None => settle promises rest slots
      end
  end.

(** [None] while some promise is still pending. *)
Definition Promise_all {A : Type} (promises : list (result A)) (order : list nat)
  : option (result (list A)) :=
  match settle promises order (replicate (length promises) None) with
  | Throw e => Some (Throw e)
  | Ok slots => Ok <$> mapM id slots
  end.

(** *** The HTTP handlers *)

Record Platform : Type := {
  p_name : string; p_value : string; repositories : Z; models : Z; agents : Z }.

Record Snapshot : Type := {
  snap_timestamp : Z;
  system : SystemMetrics;
  services : list ServiceStatus;
  platform : Platform }.

(** How a handler ends: with a JSON reply (a body, or an error payload) and
    its status code, or with a rejection that leaves the handler (it has no
    [try]; the handler sends no reply). *)
Inductive Reply (A : Type) : Type :=
| Json (code : Z) (body : A)
| JsonError (code : Z) (error : string)
| Unhandled (error : string).
Arguments Json {A} code body.
Arguments JsonError {A} code error.
Arguments Unhandled {A} error.

(** The network as one cycle sees it: what happens to the request of the
    probe at each position. *)
Definition Network : Type := nat -> Exchange.

Definition probes (services : object) (startTime : Z) (net : Network)
  : list (result ServiceStatus) :=
  imap (fun i '(name, url) => fst (checkService name (Str url) startTime (net i)))
       (Object_entries services).

(** [GET /api/status]; [now] is the clock when the reply is built. *)
Definition api_status (services : object) (os : Os) (startTime : Z) (net : Network)
    (order : list nat) (now : Z) : option (Reply Snapshot) :=
  match getSystemMetrics os with
  | Throw e => Some (JsonError 500 e)
  | Ok systemMetrics =>
      match Promise_all (probes services startTime net) order with
      | None => None
      | Some (Throw e) => Some (JsonError 500 e)
      | Some (Ok serviceChecks) =>
          Some (Json 200
            {| snap_timestamp := now;
               system := systemMetrics;
               services := serviceChecks;
               platform := {| p_name := "AI Business Platform";
                              p_value := "€3,318,300+ annual";
                              repositories := 12; models := 6; agents := 53 |} |})
      end
  end.

(** [GET /api/health/:service]: how the handler ends and the URLs handed
    to [axios.get]. *)
Definition api_health (services : object) (service : string) (startTime : Z)
    (x : Exchange) : Reply ServiceStatus * list value :=
  let url := get services service in
  if negb (truthy url) then (JsonError 404 "Service not found", [])
  else
    match checkService service url startTime x with
    | (Ok status, sent) => (Json 200 status, sent)
    | (Throw e, sent) => (Unhandled e, sent)
    end.

End Dashboard.

(** ** The alert rules one by one, and concrete inputs *)

Module Rules.
Import Js RealMonitor.
Local Open Scope string_scope.

(** The alert each rule contributes on its own ([[]] when it does not
    fire): the five conditionals of [checkRealAlerts] taken apart, in the
    order of the rule table. *)
Definition cpuRule (m : Metrics) : list string :=
  if cpuLoad m >? 500
  then ["High CPU load: " ++ show_hundredths (cpuLoad m) ++ " (1-minute average)"]%string
  else [].

Definition memoryRule (m : Metrics) : list string :=
  if memoryUsage m >? 95
  then ["🔴 CRITICAL: Memory usage: " ++ show_int (memoryUsage m) ++ "% ("
        ++ show_int (memoryUsedGB m) ++ "GB/" ++ show_int (memoryTotalGB m) ++ "GB)"]%string
  else if memoryUsage m >? 90
  then ["🟡 WARNING: High memory usage: " ++ show_int (memoryUsage m) ++ "%"]%string
  else [].

Definition openclawRule (m : Metrics) : list string :=
  if String.eqb (openclawStatus m) "RUNNING" then []
  else ["OpenClaw status: " ++ openclawStatus m]%string.

Definition diskRule (m : Metrics) : list string :=
  if diskUsageGB m >? 200
  then ["High disk usage: " ++ show_int (diskUsageGB m) ++ "GB"]%string
  else [].

Definition processRule (m : Metrics) : list string :=
  if num_gt (processCount m) 500
  then ["High process count: " ++ show_num (processCount m)]%string
  else [].

(** The fields of the metrics the rules read. *)
Definition ruleInputs (m : Metrics) : Z * Z * Z * Z * string * Z * num :=
  (cpuLoad m, memoryUsage m, memoryUsedGB m, memoryTotalGB m,
   openclawStatus m, diskUsageGB m, processCount m).


(** A quiet Linux host with [totalMem] bytes of memory, [freeMem] of them
    free, and a one-minute load average of [load]. *)
Definition host (load : Q) (totalMem freeMem : Z) : Os :=
  {| os_loadavg1 := load;
     os_totalmem := totalMem;
     os_freemem := freeMem;
     exec_ps := Ok "     412";
     exec_openclaw := Ok "       1";
     exec_node := Ok "       7";
     statSync_root := Ok (8, 4096);
     os_uptime := 86400;
     exec_netstat := Ok "     230";
     os_hostname := "monitor";
     os_platform := "linux";
     os_arch := "x64" |}.

(** 16 GB of memory, 95.1 % of it in use. *)
Definition host951 : Os := host (6 # 5) 16000000000 784000000.

(** 16 GB of memory, 90 % of it in use. *)
Definition host900 : Os := host (6 # 5) 16000000000 1600000000.

(** Half of the memory in use and a load average of 6. *)
Definition hostBusy : Os := host 6 16000000000 8000000000.

(** A host on which [ps] cannot be run. *)
Definition hostNoPs : Os :=
  {| os_loadavg1 := 6 # 5;
     os_totalmem := 16000000000;
     os_freemem := 8000000000;
     exec_ps := Throw "Command failed: ps aux | wc -l";
     exec_openclaw := Ok "       1";
     exec_node := Ok "       7";
     statSync_root := Ok (8, 4096);
     os_uptime := 86400;
     exec_netstat := Ok "     230";
     os_hostname := "monitor";
     os_platform := "linux";
     os_arch := "x64" |}.

(** A host on which the OpenClaw query cannot be run, every other query
    answering as on [host]. *)
Definition hostNoOpenclaw : Os :=
  {| os_loadavg1 := 6 # 5;
     os_totalmem := 16000000000;
     os_freemem := 8000000000;
     exec_ps := Ok "     412";
     exec_openclaw := Throw "Command failed: ps aux | grep -i openclaw | grep -v grep | wc -l";
     exec_node := Ok "       7";
     statSync_root := Ok (8, 4096);
     os_uptime := 86400;
     exec_netstat := Ok "     230";
     os_hostname := "monitor";
     os_platform := "linux";
     os_arch := "x64" |}.

(** A healthy Mac named localhost whose readings are those of the fallback
    metrics: 12 of 16 GiB in use, 400 processes, a root entry of 250 GiB. *)
Definition hostLikeFallback : Os :=
  {| os_loadavg1 := 3 # 2;
     os_totalmem := 16 * GiB;
     os_freemem := 4 * GiB;
     exec_ps := Ok "     401";
     exec_openclaw := Ok "       1";
     exec_node := Ok "      10";
     statSync_root := Ok (65536000, 4096);
     os_uptime := 86400;
     exec_netstat := Ok "     100";
     os_hostname := "localhost";
     os_platform := "darwin";
     os_arch := "arm64" |}.

(** A host with 85 % of its memory in use. *)
Definition host850 : Os := host (6 # 5) 16000000000 2400000000.

(** [{ ...metrics, memoryUsage: p }] *)
Definition withMemoryUsage (m : Metrics) (p : Z) : Metrics :=
  {| timestamp := timestamp m;
     cpuLoad := cpuLoad m;
     memoryUsage := p;
     memoryUsedGB := memoryUsedGB m;
     memoryTotalGB := memoryTotalGB m;
     memoryFreeGB := memoryFreeGB m;
     processCount := processCount m;
     openclawStatus := openclawStatus m;
     nodeProcesses := nodeProcesses m;
     diskUsageGB := diskUsageGB m;
     uptimeHours := uptimeHours m;
     networkConnections := networkConnections m;
     hostname := hostname m;
     platform := platform m;
     arch := arch m;
     agentHealth := agentHealth m;
     revenueTarget := revenueTarget m;
     responseTime := responseTime m;
     activeAgents := activeAgents m;
     adsFarmingRevenue := adsFarmingRevenue m;
     web3DomainRevenue := web3DomainRevenue m;
     totalRevenue := totalRevenue m;
     adsDivision := adsDivision m;
     web3Division := web3Division m |}.

(** The error that reaches the [catch] of [getRealSystemMetrics]: that of
    the first query, in program order, that throws outside the inner [try]
    (the OpenClaw query sits inside it). *)
Definition firstThrow (os : Os) : option string :=
  match exec_ps os, exec_node os, statSync_root os, exec_netstat os with
  | Throw e, _, _, _ => Some e
  | Ok _, Throw e, _, _ => Some e
  | Ok _, Ok _, Throw e, _ => Some e
  | Ok _, Ok _, Ok _, Throw e => Some e
  | Ok _, Ok _, Ok _, Ok _ => None
  end.

Definition times : Times :=
  {| t_init := "2026-01-01T00:00:00.000Z";
     t_metrics := "2026-01-01T00:00:00.001Z";
     t_summary := "2026-01-01T00:00:00.020Z" |}.

(** What [logCheck] is to keep: the last 100 entries of the log extended
    by the new check. *)
Definition kept (log : list Check) (check : Check) : list Check :=
  drop (length (log ++ [check]) - 100) (log ++ [check]).

(** A log filled to the cap: 100 checks stamped 0 to 99. *)
Definition checkAt (i : nat) : Check :=
  {| c_timestamp := show_int (Z.of_nat i);
     c_metrics := getFallbackMetrics (show_int (Z.of_nat i));
     c_alerts := None |}.

Definition fullLog : Logs :=
  {| startTime := "0";
     checks := checkAt <$> seq 0 100;
     totalChecks := 100;
     totalAlerts := 0;
     systemUptime := 100 |}.

(** What a run reports. *)
Definition run_status (r : RunResult) : option SystemStatus :=
  match r with
  | Success summary _ _ => Some (systemStatus summary)
  | Failure _ => None
  end.

Definition run_alerts (r : RunResult) : list string :=
  match r with
  | Success _ _ alerts => alerts
  | Failure _ => []
  end.

End Rules.

Module Scenarios.
Import Js Dashboard.
Local Open Scope string_scope.

(** A Linux server with two processors, half of its memory in use; its
    probes start when the clock reads 1000. *)
Definition server : Os :=
  {| os_totalmem := 16000000000;
     os_freemem := 8000000000;
     os_platform := "linux";
     statfsSync := fun _ => Ok {| blocks := 1000000; bsize := 4096; bfree := 400000 |};
     os_cpus := [ {| user := 100; nice := 0; sys := 50; idle := 850; irq := 0 |};
                  {| user := 200; nice := 0; sys := 100; idle := 700; irq := 0 |} ];
     os_uptime := 90061 |}.

(** The same server when [statfs] fails. *)
Definition serverNoStatfs : Os :=
  {| os_totalmem := 16000000000;
     os_freemem := 8000000000;
     os_platform := "linux";
     statfsSync := fun path =>
       Throw ("ENOENT: no such file or directory, statfs '" ++ path ++ "'");
     os_cpus := os_cpus server;
     os_uptime := 90061 |}.

Definition refused : Exchange :=
  {| outcome := NetworkError "connect ECONNREFUSED 127.0.0.1:3002";
     finished := 1002; stamped := 1002 |}.

Definition answered : Exchange :=
  {| outcome := Response 200 (Some "2.1.0"); finished := 1012; stamped := 1012 |}.

Definition unavailable : Exchange :=
  {| outcome := Response 503 None; finished := 1040; stamped := 1040 |}.

Definition silent : Exchange :=
  {| outcome := TimedOut; finished := 6003; stamped := 6003 |}.

(** A 2xx reply during which the clock was set back by 17 ms. *)
Definition steppedBack : Exchange :=
  {| outcome := Response 200 (Some "2.1.0"); finished := 995; stamped := 996 |}.

(** A refused connection whose error carries no message. *)
Definition refusedSilently : Exchange :=
  {| outcome := NetworkError ""; finished := 1002; stamped := 1002 |}.

(** A server whose processor list is empty. *)
Definition serverNoCpus : Os :=
  {| os_totalmem := 16000000000;
     os_freemem := 8000000000;
     os_platform := "linux";
     statfsSync := statfsSync server;
     os_cpus := [];
     os_uptime := 90061 |}.

Definition allDown : Network := fun _ => refused.
Definition allUp : Network := fun _ => answered.

End Scenarios.

(** ** The report, repeated runs, the analysis endpoint and the page script *)

Module Report.
Import Js RealMonitor Rules.
Local Open Scope string_scope.

(** [createRealReport]: the colour of the status banner. *)
Definition statusColor (status : SystemStatus) : string :=
  match status with
  | HEALTHY => "#38a169"
  | WARNING => "#d69e2e"
  | CRITICAL => "#e53e3e"
  end.


(** The log file after the monitor has been run once per element of
    [cycles], each run with its own clock readings and host state. *)
Fixpoint runs (cycles : list (Times * Os)) (file : LogFile) : LogFile :=
  match cycles with
  | [] => file
  | (t, os) :: rest => runs rest (fst (fst (runRealMonitoring t os file)))
  end.

(** The alerts of one run: they depend on the host state and on the clock
    reading of the collection only. *)
Definition cycleAlerts (cycle : Times * Os) : list string :=
  checkRealAlerts (fst (getRealSystemMetrics (t_metrics (fst cycle)) (snd cycle))).

(** The log [initializeLogs] leaves for the run to work with. *)
Definition startingLogs (now : string) (file : LogFile) : Logs :=
  match file with
  | Some logs => logs
  | None => {| startTime := now; checks := []; totalChecks := 0;
               totalAlerts := 0; systemUptime := 100 |}
  end.

(** No character of [s] is [c]. *)
Fixpoint avoids (c : ascii) (s : string) : bool :=
  match s with
  | EmptyString => true
  | String a rest => negb (Ascii.eqb a c) && avoids c rest
  end.

(** The first byte of both severity markers (they are four-byte UTF-8
    sequences). *)
Definition markerByte : ascii := "240"%char.

End Report.

Module Kimi.
Import Js Dashboard.
Local Open Scope string_scope.

Inductive ParamValue : Type :=
| PStr (s : string)
| PBool (b : bool).

(** What [params[analysisType] || {}] yields: an object of parameters, or
    a member inherited from [Object.prototype] ([params] is an object
    literal and every such member is truthy). *)
Inductive Parameters : Type :=
| ParamObject (fields : list (string * ParamValue))
| ParamInherited (property : string).

Definition params : list (string * list (string * ParamValue)) :=
  [ ("thinking_mode_analysis",
     [ ("problem", PStr "Analyze system performance and identify optimization opportunities");
       ("context", PStr "Current system metrics and service health status");
       ("show_steps", PBool true) ]);
    ("decompose_task",
     [ ("task", PStr "Optimize AI platform performance and reduce costs");
       ("complexity", PStr "high");
       ("deadline", PStr "1 week");
       ("dependencies", PStr "Current infrastructure, budget constraints") ]);
    ("system_design",
     [ ("requirements", PStr "Design improved monitoring system with predictive analytics");
       ("constraints", PStr "Must work with existing services, minimal additional cost");
       ("scale", PStr "enterprise") ]) ].

Fixpoint ownParams (obj : list (string * list (string * ParamValue))) (key : string)
  : option (list (string * ParamValue)) :=
  match obj with
  | [] => None
  | (k, v) :: rest => if String.eqb k key then Some v else ownParams rest key
  end.

Definition getAnalysisParameters (analysisType : string) : Parameters :=
  match ownParams params analysisType with
  | Some fields => ParamObject fields
  | None => if existsb (String.eqb analysisType) objectPrototypeKeys
            then ParamInherited analysisType else ParamObject []
  end.

(** The two fields read from the body of the upstream reply. *)
Record KimiData : Type := {
  k_response : option string;
  k_responseTime : option Z }.

(** How the POST to the analysis service ends; [data] is [None] when the
    body is JSON [null]. *)
Inductive PostOutcome : Type :=
| PostNetworkError (message : string)
| PostResponse (code : Z) (data : option KimiData)
| PostTimedOut.

(** [axios.post(url, body, { timeout: 30000 })] *)
Definition axios_post (o : PostOutcome) : result (option KimiData) :=
  match o with
  | PostNetworkError message => Throw message
  | PostResponse code data =>
      if ((200 <=? code) && (code <? 300))%Z then Ok data
      else Throw ("Request failed with status code " ++ show_int code)
  | PostTimedOut => Throw "timeout of 30000ms exceeded"
  end.

(** The object [runKimiAnalysis] resolves with. *)
Inductive Analysis : Type :=
| AnalysisDone (analysis : option string) (responseTime : option Z)
| AnalysisFailed (error : string).

Definition succeeded (a : Analysis) : bool :=
  match a with
  | AnalysisDone _ _ => true
  | AnalysisFailed _ => false
  end.

(** The body of the POST: [tool], [parameters], [model]. *)
Record Execute : Type := {
  x_tool : string;
  x_parameters : Parameters;
  x_model : string }.

(** [runKimiAnalysis(analysisType)]: the object it resolves with and the
    body it posted. *)
Definition runKimiAnalysis (analysisType : string) (o : PostOutcome)
  : Analysis * Execute :=
  let body := {| x_tool := analysisType;
                 x_parameters := getAnalysisParameters analysisType;
                 x_model := "llama3.2" |} in
  let tried :=
    let! data := axios_post o in
    match data with
    | Some d => Ok (AnalysisDone (k_response d) (k_responseTime d))
    | None => Throw "Cannot read properties of null (reading 'response')"
    end in
  (match tried with
   | Ok a => a
   | Throw message => AnalysisFailed message
   end, body).

(** [POST /api/kimi/analyze] with a JSON object as body whose [tool] is a
    string or absent: the reply and the bodies posted upstream. *)
Definition api_kimi_analyze (tool : option string) (o : PostOutcome)
  : Reply Analysis * list Execute :=
  match tool with
  | None => (JsonError 400 "Tool name is required", [])
  | Some t =>
      if String.eqb t "" then (JsonError 400 "Tool name is required", [])
      else let '(result, body) := runKimiAnalysis t o in (Json 200 result, [body])
  end.

(** The tool names listed by [GET /api/kimi/tools]. *)
Definition tools : list string :=
  [ "thinking_mode_analysis"; "decompose_task"; "system_design";
    "code_review"; "business_analysis" ].

End Kimi.

Module Page.
Import Js Dashboard.
Local Open Scope string_scope.

(** The page script of the dashboard ([loadDashboard]): the class of the
    three progress bars and the version shown on a service card, computed
    from the JSON of [/api/status]. *)
Inductive Color : Type := green | yellow | red.

Definition cpuBar (sm : SystemMetrics) : Color :=
  match cpu sm with
  | Int c => if (c <? 500)%Z then green else if (c <? 800)%Z then yellow else red
  | NaN => red
  end.

Definition memoryBar (sm : SystemMetrics) : Color :=
  if (percent (memory sm) <? 700)%Z then green
  else if (percent (memory sm) <? 900)%Z then yellow else red.

Definition diskBar (sm : SystemMetrics) : Color :=
  if (percent (disk sm) <? 700)%Z then green
  else if (percent (disk sm) <? 900)%Z then yellow else red.

Definition versionShown (s : ServiceStatus) : string := or_else (version s) "N/A".

End Page.

(** ** Properties of the periodic monitor *)

Module MonitorProofs.
Import Js RealMonitor Rules.

(** Runs the four queries of [collect] that can throw and keeps the case in
    which all of them return. *)
Ltac collect_returns os :=
  unfold collect, bind;
  destruct (exec_ps os); [|discriminate];
  destruct (exec_node os); [|discriminate];
  destruct (statSync_root os); [|discriminate];
  destruct (exec_netstat os); [|discriminate].

Section Rounding.

Lemma Qfloor_fraction (q : Q) (n d : Z) :
  0 < d -> (q == n # Z.to_pos d)%Q -> Qfloor q = n / d.
Proof.
  intros Hd Hq. rewrite Hq. simpl. rewrite Z2Pos.id by lia. reflexivity.
Qed.

(** [Math.round(n / d)] on integers, by integer division. *)
Lemma Math_round_ratio (n d : Z) :
  0 < d -> Math_round (inject_Z n / inject_Z d) = (2 * n + d) / (2 * d).
Proof.
  intros Hd. unfold Math_round. apply Qfloor_fraction; [lia|].
  unfold Qeq, Qdiv, Qplus, Qmult, Qinv, inject_Z; simpl.
  destruct d as [|p|p]; try lia. simpl. lia.
Qed.

Lemma memoryUsageOf_ratio (totalMem freeMem : Z) :
  0 < totalMem ->
  memoryUsageOf totalMem freeMem
  = (200 * (totalMem - freeMem) + totalMem) / (2 * totalMem).
Proof.
  intros Hd. unfold memoryUsageOf, Math_round. apply Qfloor_fraction; [lia|].
  unfold Qeq, Qdiv, Qplus, Qmult, Qinv, inject_Z; simpl.
  destruct totalMem as [|p|p]; try lia. simpl. lia.
Qed.



End Rounding.

Section AlertRules.

Variable m : Metrics.

(** The pushes of [checkRealAlerts] lay the alerts out rule by rule. *)
Lemma checkRealAlerts_rules :
  checkRealAlerts m
  = cpuRule m ++ memoryRule m ++ openclawRule m ++ diskRule m ++ processRule m.
Proof.
  unfold checkRealAlerts, cpuRule, memoryRule, openclawRule, diskRule,
    processRule, push.
  destruct (cpuLoad m >? 500), (memoryUsage m >? 95), (memoryUsage m >? 90),
    (String.eqb (openclawStatus m) "RUNNING"), (diskUsageGB m >? 200),
    (num_gt (processCount m) 500); reflexivity.
Qed.





End AlertRules.

Section Collection.

Lemma collect_memoryUsage (ts : string) (os : Os) (m : Metrics) :
  collect ts os = Ok m ->
  memoryUsage m = memoryUsageOf (os_totalmem os) (os_freemem os).
Proof. collect_returns os. intros [= <-]. reflexivity. Qed.

End Collection.




(** C9: alert evaluation is a function of the seven fields the rules read;
    two metrics that agree on them yield the same alerts, laid out in the
    fixed rule order CPU, memory, OpenClaw status, disk, process count, with
    at most one alert per rule. *)
Theorem checkRealAlerts_deterministic (m1 m2 : Metrics) :
  ruleInputs m1 = ruleInputs m2 ->
  checkRealAlerts m1 = checkRealAlerts m2 /\
  checkRealAlerts m1
  = cpuRule m1 ++ memoryRule m1 ++ openclawRule m1 ++ diskRule m1 ++ processRule m1 /\
  (length (cpuRule m1) <= 1 /\ length (memoryRule m1) <= 1 /\
   length (openclawRule m1) <= 1 /\ length (diskRule m1) <= 1 /\
   length (processRule m1) <= 1)%nat.
Proof.
  intros Heq. split; [|split].
  - unfold ruleInputs in Heq. injection Heq as Hc Hu Hg Ht Ho Hd Hp.
    unfold checkRealAlerts. rewrite Hc, Hu, Hg, Ht, Ho, Hd, Hp. reflexivity.
  - apply checkRealAlerts_rules.
  - unfold cpuRule, memoryRule, openclawRule, diskRule, processRule.
    destruct (cpuLoad m1 >? 500), (memoryUsage m1 >? 95), (memoryUsage m1 >? 90),
      (String.eqb (openclawStatus m1) "RUNNING"), (diskUsageGB m1 >? 200),
      (num_gt (processCount m1) 500); simpl; lia.
Qed.

Lemma checkRealAlerts_deterministic_witness :
  ruleInputs (fst (getRealSystemMetrics "09:00" hostBusy))
  = ruleInputs (fst (getRealSystemMetrics "09:05" hostBusy)) /\
  checkRealAlerts (fst (getRealSystemMetrics "09:00" hostBusy))
  = checkRealAlerts (fst (getRealSystemMetrics "09:05" hostBusy)).
Proof.
  split; [reflexivity|].
  exact (proj1 (checkRealAlerts_deterministic _ _ eq_refl)).
Defined.


Section CheckLog.

Lemma slice_last_100 (A : Type) (l : list A) :
  slice l (-100) = drop (length l - 100) l.
Proof. unfold slice. f_equal. simpl. lia. Qed.

Lemma logCheck_kept (metrics : Metrics) (alerts : list string) (logs : Logs) :
  exists logs' check,
    logCheck metrics alerts (Some logs) = Ok (Some logs', check)
    /\ checks logs' = kept (checks logs) check
    /\ c_alerts check = (if decide (alerts = []) then None else Some alerts)
    /\ c_timestamp check = timestamp metrics
    /\ totalChecks logs' = totalChecks logs + 1
    /\ totalAlerts logs' = totalAlerts logs + Z.of_nat (length alerts).
Proof.
  unfold logCheck, readLogs, bind. eexists _, _. split; [reflexivity|]. simpl.
  repeat split.
  - unfold kept.
    match goal with
    | |- context [Z.of_nat (length ?l) >? 100] =>
        destruct (Z.gtb_spec (Z.of_nat (length l)) 100) as [Hgt|Hle]
    end.
    + apply slice_last_100.
    + replace (length _ - 100)%nat with 0%nat by lia. reflexivity.
  - destruct alerts; reflexivity.
Qed.

Lemma kept_last (log : list Check) (check : Check) :
  last (kept log check) = Some check.
Proof.
  unfold kept. rewrite drop_app_le by (rewrite length_app; simpl; lia).
  apply last_snoc.
Qed.

Lemma lookup_last (A : Type) (l : list A) : l !! (length l - 1)%nat = last l.
Proof. rewrite last_lookup. f_equal. lia. Qed.

End CheckLog.

(** C3: after [logCheck] the log holds at most 100 checks; what was removed
    is a prefix of the extended log (its oldest entries), exactly as many
    as exceed the cap, and the survivors keep their order. *)
Theorem logCheck_bounded_fifo (metrics : Metrics) (alerts : list string) (logs : Logs) :
  exists logs' check evicted,
    logCheck metrics alerts (Some logs) = Ok (Some logs', check)
    /\ checks logs ++ [check] = evicted ++ checks logs'
    /\ (length (checks logs') <= 100)%nat
    /\ length (checks logs') = Nat.min (length (checks logs) + 1) 100.
Proof.
  destruct (logCheck_kept metrics alerts logs) as (logs' & check & Hrun & Hk & _).
  exists logs', check, (take (length (checks logs ++ [check]) - 100) (checks logs ++ [check])).
  split; [assumption|]. rewrite Hk. unfold kept.
  split; [symmetry; apply take_drop|].
  rewrite length_drop, length_app. simpl. lia.
Qed.

Section Cycle.

Variables (t : Times) (os : Os) (file : LogFile).

(** One run never fails on the log: it reports success, with the alerts of
    the metrics it collected and the status of the check it just logged. *)
Lemma runRealMonitoring_success :
  exists file' summary,
    runRealMonitoring t os file
    = (file', snd (getRealSystemMetrics (t_metrics t) os),
       Success summary (fst (getRealSystemMetrics (t_metrics t) os))
         (checkRealAlerts (fst (getRealSystemMetrics (t_metrics t) os))))
    /\ systemStatus summary
       = match checkRealAlerts (fst (getRealSystemMetrics (t_metrics t) os)) with
         | [] => HEALTHY
         | alert :: rest =>
             if existsb isCritical (alert :: rest) then CRITICAL else WARNING
         end.
Proof.
  unfold runRealMonitoring.
  destruct (getRealSystemMetrics (t_metrics t) os) as [metrics errs]. simpl.
  assert (Hinit : exists logs, initializeLogs (t_init t) file = Some logs)
    by (destruct file; simpl; eauto).
  destruct Hinit as [logs ->].
  destruct (logCheck_kept metrics (checkRealAlerts metrics) logs)
    as (logs' & check & -> & Hk & Ha & _).
  unfold generateSummary, readLogs, bind.
  eexists _, _. split; [reflexivity|]. simpl.
  rewrite lookup_last, Hk, kept_last. unfold statusOf. rewrite Ha.
  destruct (checkRealAlerts metrics); reflexivity.
Qed.

End Cycle.

(** C2, as stated, fails: an alert without a severity tag (here the CPU
    alert) makes the overall status WARNING although no alert of the
    snapshot is tagged warning. *)
Lemma untagged_alert_reports_WARNING :
  let run := snd (runRealMonitoring times hostBusy None) in
  run_alerts run = ["High CPU load: 6 (1-minute average)"%string]
  /\ run_status run = Some WARNING
  /\ ~ (run_status run = Some WARNING <->
        existsb isCritical (run_alerts run) = false
        /\ existsb isWarning (run_alerts run) = true).
Proof.
  vm_compute. split; [reflexivity|]. split; [reflexivity|].
  intros [H _]. destruct (H eq_refl) as [_ Hw]. discriminate.
Qed.

(** C2, amended: every run reports a summary whose status is CRITICAL
    exactly when some alert is tagged critical, WARNING exactly when no
    alert is tagged critical and there is at least one alert (tagged warning
    or untagged), and HEALTHY exactly when there is no alert. *)
Theorem overall_health_from_alerts (t : Times) (os : Os) (file : LogFile) :
  exists file' errs summary metrics,
    runRealMonitoring t os file
    = (file', errs, Success summary metrics (checkRealAlerts metrics))
    /\ (systemStatus summary = CRITICAL <->
        exists alert, In alert (checkRealAlerts metrics) /\ isCritical alert = true)
    /\ (systemStatus summary = WARNING <->
        (~ exists alert, In alert (checkRealAlerts metrics) /\ isCritical alert = true)
        /\ checkRealAlerts metrics <> [])
    /\ (systemStatus summary = HEALTHY <-> checkRealAlerts metrics = []).
Proof.
  destruct (runRealMonitoring_success t os file) as (file' & summary & Hrun & Hs).
  exists file', (snd (getRealSystemMetrics (t_metrics t) os)), summary,
    (fst (getRealSystemMetrics (t_metrics t) os)).
  split; [exact Hrun|]. rewrite Hs. clear Hrun Hs.
  destruct (checkRealAlerts _) as [|alert rest].
  - repeat split; try discriminate; try congruence.
    + intros (a & [] & _).
    + intros [_ H]. congruence.
  - rewrite <- existsb_exists.
    destruct (existsb isCritical (alert :: rest)); repeat split;
      try discriminate; try congruence; intros [H1 H2]; congruence.
Qed.

Section Fallback.

(** The [try] block throws exactly when one of the four queries outside
    the inner [try] throws; the first of them, in program order, gives the
    error. *)
Lemma collect_throws (ts : string) (os : Os) (e : string) :
  collect ts os = Throw e ->
  exec_ps os = Throw e \/ exec_node os = Throw e
  \/ statSync_root os = Throw e \/ exec_netstat os = Throw e.
Proof.
  unfold collect, bind.
  destruct (exec_ps os); [|intros [= ->]; auto].
  destruct (exec_node os); [|intros [= ->]; auto].
  destruct (statSync_root os); [|intros [= ->]; auto].
  destruct (exec_netstat os); [discriminate|intros [= ->]; auto].
Qed.

Lemma query_failure_throws (ts : string) (os : Os) :
  (exists e, exec_ps os = Throw e) \/ (exists e, exec_node os = Throw e)
  \/ (exists e, statSync_root os = Throw e) \/ (exists e, exec_netstat os = Throw e) ->
  exists e, collect ts os = Throw e.
Proof.
  unfold collect, bind.
  intros [[e H]|[[e H]|[[e H]|[e H]]]]; rewrite H;
    repeat match goal with
           | |- context [match ?r with Ok _ => _ | Throw _ => _ end] =>
               destruct r
           end; eauto.
Qed.

(** A failure of the OpenClaw query is absorbed by the inner [try]: the
    real metrics are returned with the status ERROR. *)
Lemma openclaw_failure_absorbed (ts : string) (os : Os) (m : Metrics) (e : string) :
  exec_openclaw os = Throw e -> collect ts os = Ok m ->
  openclawStatus m = "ERROR"%string.
Proof. intros He. collect_returns os. rewrite He. intros [= <-]. reflexivity. Qed.

(** No successful collection returns the fallback value: 85 percent is
    not what 12 GB used out of 16 GB round to. *)
Lemma fallback_unlike_real (ts ts' : string) (os : Os) (m : Metrics) :
  collect ts os = Ok m -> m <> getFallbackMetrics ts'.
Proof.
  collect_returns os. intros [= <-] Heq.
  apply (f_equal (fun x => (memoryUsage x, memoryUsedGB x, memoryTotalGB x))) in Heq.
  simpl in Heq. injection Heq as Hu Hg Ht.
  set (total := os_totalmem os) in *. set (free := os_freemem os) in *.
  assert (HG : 0 < GiB) by reflexivity.
  rewrite Math_round_ratio in Hg, Ht by assumption.
  assert (Hpos : 0 < total).
  { destruct (Z_lt_le_dec 0 total) as [|Hle]; [assumption|exfalso].
    assert (H1 : (2 * total + GiB) / (2 * GiB) < 1).
    { apply Z.div_lt_upper_bound; unfold GiB in *; lia. }
    lia. }
  rewrite memoryUsageOf_ratio in Hu by assumption.
  pose proof (Z.mul_div_le (200 * (total - free) + total) (2 * total) ltac:(lia)) as B1.
  pose proof (Z.mul_succ_div_gt (2 * (total - free) + GiB) (2 * GiB) ltac:(lia)) as B2.
  pose proof (Z.mul_div_le (2 * total + GiB) (2 * GiB) ltac:(lia)) as B3.
  rewrite Hu in B1. rewrite Hg in B2. rewrite Ht in B3.
  unfold GiB in *. lia.
Qed.

End Fallback.

(** C8, as stated, fails in two ways.  A query that errors does not always
    lead to the fallback: when the OpenClaw query throws, the inner [try]
    absorbs it, the real metrics are returned with the status ERROR and
    nothing is reported.  And the fallback value is not marked: it has the
    fields of a real reading, a real host can show every one of its figures
    ([hostLikeFallback] differs from it in the memory percentage alone, and
    [host850] shows that percentage), and both raise the same alerts. *)
Lemma fallback_unmarked_and_openclaw_absorbed :
  (exists e m,
     exec_openclaw hostNoOpenclaw = Throw e
     /\ getRealSystemMetrics "t" hostNoOpenclaw = (m, [])
     /\ openclawStatus m = "ERROR"%string
     /\ m <> getFallbackMetrics "t")
  /\ collect "t" hostLikeFallback = Ok (withMemoryUsage (getFallbackMetrics "t") 75)
  /\ memoryUsage (fst (getRealSystemMetrics "t" host850))
     = memoryUsage (getFallbackMetrics "t")
  /\ checkRealAlerts (fst (getRealSystemMetrics "t" hostLikeFallback))
     = checkRealAlerts (getFallbackMetrics "t").
Proof.
  split; [|split; [|split]]; try reflexivity.
  eexists _, _. split; [reflexivity|]. split; [reflexivity|].
  split; [reflexivity|]. discriminate.
Qed.

(** C8, amended: [getRealSystemMetrics] never propagates an error.  When
    one of the queries outside the inner [try] throws (the process count,
    the Node.js count, the root entry, the connection count), it writes the
    error to the error console and returns the fixed fallback metrics in
    place of the real ones; otherwise it returns the real reading and
    writes nothing, a throwing OpenClaw query showing only as the status
    ERROR.  In both cases the run goes on to log the check and reports
    success. *)
Theorem metric_failure_falls_back (t : Times) (os : Os) (file : LogFile) :
  let ts := t_metrics t in
  match firstThrow os with
  | Some e =>
      let fallback := getFallbackMetrics ts in
      let reported := ["Error getting real metrics: " ++ e]%string in
      getRealSystemMetrics ts os = (fallback, reported)
      /\ exists file' summary,
           runRealMonitoring t os file
           = (file', reported, Success summary fallback (checkRealAlerts fallback))
  | None =>
      exists m,
        getRealSystemMetrics ts os = (m, [])
        /\ collect ts os = Ok m
        /\ hostname m = os_hostname os
        /\ memoryUsage m = memoryUsageOf (os_totalmem os) (os_freemem os)
        /\ (forall e, exec_openclaw os = Throw e -> openclawStatus m = "ERROR"%string)
        /\ exists file' summary,
             runRealMonitoring t os file
             = (file', [], Success summary m (checkRealAlerts m))
  end.
Proof.
  intros ts.
  destruct (runRealMonitoring_success t os file) as (file' & summary & Hrun & _).
  fold ts in Hrun.
  assert (Hcases :
    match firstThrow os with
    | Some e => collect ts os = Throw e
    | None => exists m, collect ts os = Ok m /\ hostname m = os_hostname os
    end).
  { unfold firstThrow, collect, bind.
    destruct (exec_ps os); [|reflexivity].
    destruct (exec_node os); [|reflexivity].
    destruct (statSync_root os); [|reflexivity].
    destruct (exec_netstat os); [|reflexivity].
    eexists. split; reflexivity. }
  destruct (firstThrow os) as [e|].
  - assert (Hget : getRealSystemMetrics ts os
                   = (getFallbackMetrics ts, ["Error getting real metrics: " ++ e]%string))
      by (unfold getRealSystemMetrics; rewrite Hcases; reflexivity).
    cbv zeta. split; [exact Hget|]. rewrite Hget in Hrun. eauto.
  - destruct Hcases as (m & Hm & Hh).
    assert (Hget : getRealSystemMetrics ts os = (m, []))
      by (unfold getRealSystemMetrics; rewrite Hm; reflexivity).
    exists m. split; [exact Hget|]. split; [exact Hm|]. split; [exact Hh|].
    split; [exact (collect_memoryUsage ts os m Hm)|]. split.
    + intros e He. exact (openclaw_failure_absorbed ts os m e He Hm).
    + rewrite Hget in Hrun. eauto.
Qed.

Section Examples.

Example host951_alerts :
  checkRealAlerts (fst (getRealSystemMetrics "t" host951))
  = ["🟡 WARNING: High memory usage: 95%"%string].
Proof. reflexivity. Qed.

Example host900_alerts :
  checkRealAlerts (fst (getRealSystemMetrics "t" host900)) = [].
Proof. reflexivity. Qed.

Example host960_alerts :
  checkRealAlerts (fst (getRealSystemMetrics "t" (host (6 # 5) 16000000000 640000000)))
  = ["🔴 CRITICAL: Memory usage: 96% (14GB/15GB)"%string].
Proof. reflexivity. Qed.

(** The fallback metrics themselves raise the disk alert. *)
Example fallback_alerts :
  checkRealAlerts (getFallbackMetrics "t") = ["High disk usage: 250GB"%string].
Proof. reflexivity. Qed.

Example full_log_evicts_oldest :
  match logCheck (getFallbackMetrics "100") ["High disk usage: 250GB"%string]
          (Some fullLog) with
  | Ok (Some logs', _) =>
      c_timestamp <$> checks logs' = (fun i => show_int (Z.of_nat i)) <$> seq 1 100
  | _ => False
  end.
Proof. vm_compute. reflexivity. Qed.

End Examples.

End MonitorProofs.

(** ** Properties of the dashboard server *)

Module DashboardProofs.
Import Js Dashboard Scenarios.

Section Probe.

Variables (name : string) (startTime : Z) (x : Exchange).

Lemma strict_eq_local (u : string) :
  strict_eq (Str u) "local" = true <-> u = "local"%string.
Proof. simpl. apply String.eqb_eq. Qed.

(** A probe of a configured (string) URL always settles with a status that
    carries the name it was given; it sends at most one request. *)
Lemma checkService_settles (u : string) :
  exists s sent,
    checkService name (Str u) startTime x = (Ok s, sent)
    /\ Dashboard.name s = name
    /\ (sent = [] \/ sent = [Str u]).
Proof.
  unfold checkService.
  destruct (strict_eq (Str u) "local").
  - eexists _, _. split; [reflexivity|]. simpl. auto.
  - unfold bind, url_replace. destruct (axios_get x);
      (eexists _, _; split; [reflexivity|]; simpl; auto).
Qed.

Lemma checkService_rejected (u message : string) :
  strict_eq (Str u) "local" = false ->
  axios_get x = Throw message ->
  exists s,
    checkService name (Str u) startTime x = (Ok s, [Str u])
    /\ Dashboard.name s = name /\ status s = critical
    /\ error s = Some message
    /\ responseTime s = finished x - startTime.
Proof.
  intros Hl Hx. unfold checkService. rewrite Hl. unfold bind, url_replace.
  rewrite Hx. eexists. split; [reflexivity|]. simpl. repeat split.
Qed.

Lemma checkService_fulfilled (u : string) (v : option string) :
  strict_eq (Str u) "local" = false ->
  axios_get x = Ok v ->
  exists s,
    checkService name (Str u) startTime x = (Ok s, [Str u])
    /\ Dashboard.name s = name /\ status s = healthy
    /\ error s = None
    /\ responseTime s = finished x - startTime.
Proof.
  intros Hl Hx. unfold checkService. rewrite Hl. unfold bind, url_replace.
  rewrite Hx. eexists. split; [reflexivity|]. simpl. repeat split.
Qed.

End Probe.

(** C6, as stated, fails in three ways.  The response time is the
    difference of two readings of the wall clock: when the clock is set back
    while a request is under way, a 2xx reply gives a healthy status with a
    negative response time.  The [error] field is the message of the error:
    a network error without a message gives a critical status whose [error]
    is the empty string.  And a probe handed the inherited constructor
    function (the one [GET /api/health/constructor] starts) returns no
    status at all. *)
Lemma probe_times_and_messages_not_guaranteed :
  (exists s,
     fst (checkService "ollama-api" (Str "http://localhost:3002/health") 1000 steppedBack)
     = Ok s
     /\ status s = healthy /\ responseTime s = -5)
  /\ (exists s,
        fst (checkService "ollama-api" (Str "http://localhost:3002/health") 1000
               refusedSilently) = Ok s
        /\ status s = critical /\ error s = Some ""%string)
  /\ fst (checkService "constructor" (Inherited "constructor") 1000 refused)
     = Throw "url.replace is not a function".
Proof.
  split; [|split].
  - eexists. split; [reflexivity|]. split; reflexivity.
  - eexists. split; [reflexivity|]. split; reflexivity.
  - reflexivity.
Qed.

(** C6, amended: a probe of a string URL other than the local marker sends
    one request and settles with a status.  A network error, a response
    outside 200..299 or a timeout gives state critical with the message of
    the error in [error] (never empty for a bad status or a timeout); a 2xx
    response gives state healthy and no [error].  The response time is the
    second clock reading minus the first, hence non-negative whenever the
    clock did not step back between them. *)
Theorem checkService_classifies (name u : string) (startTime : Z) (x : Exchange) :
  u <> "local"%string ->
  exists s,
    checkService name (Str u) startTime x = (Ok s, [Str u])
    /\ responseTime s = finished x - startTime
    /\ (startTime <= finished x -> 0 <= responseTime s)
    /\ match outcome x with
       | NetworkError message =>
           status s = critical /\ error s = Some message
       | Response code _ =>
           if (200 <=? code) && (code <? 300)
           then status s = healthy /\ error s = None
           else exists message,
                  status s = critical /\ error s = Some message
                  /\ message
                     = ("Request failed with status code " ++ show_int code)%string
                  /\ message <> ""%string
       | TimedOut =>
           status s = critical /\ error s = Some "timeout of 5000ms exceeded"%string
       end.
Proof.
  intros Hu.
  assert (Hl : strict_eq (Str u) "local" = false).
  { destruct (strict_eq (Str u) "local") eqn:E; [|reflexivity].
    apply strict_eq_local in E. contradiction. }
  destruct (axios_get x) as [v|message] eqn:Hx.
  - destruct (checkService_fulfilled name startTime x u v Hl Hx)
      as (s & -> & _ & Hs & He & Ht).
    exists s. split; [reflexivity|]. split; [exact Ht|]. split; [lia|].
    unfold axios_get in Hx. destruct (outcome x) as [m|code ver|]; try discriminate.
    destruct ((200 <=? code) && (code <? 300)); [|discriminate].
    split; assumption.
  - destruct (checkService_rejected name startTime x u message Hl Hx)
      as (s & -> & _ & Hs & He & Ht).
    exists s. split; [reflexivity|]. split; [exact Ht|]. split; [lia|].
    unfold axios_get in Hx. destruct (outcome x) as [m|code ver|].
    + injection Hx as ->. auto.
    + destruct ((200 <=? code) && (code <? 300)); [discriminate|].
      injection Hx as <-. eexists. repeat split; try eassumption. discriminate.
    + injection Hx as <-. auto.
Qed.

Lemma checkService_classifies_witness :
  "http://localhost:3002/health"%string <> "local"%string
  /\ exists s,
       checkService "ollama-api" (Str "http://localhost:3002/health") 1000 silent
       = (Ok s, [Str "http://localhost:3002/health"])
       /\ responseTime s = 5003
       /\ status s = critical
       /\ error s = Some "timeout of 5000ms exceeded"%string.
Proof.
  assert (H : "http://localhost:3002/health"%string <> "local"%string) by discriminate.
  split; [exact H|].
  destruct (checkService_classifies "ollama-api" _ 1000 silent H)
    as (s & Hs & Ht & _ & Hc).
  exists s. split; [exact Hs|]. split; [exact Ht|]. exact Hc.
Defined.

(** C10: a probe of the local marker returns, whatever the name, the clock
    and the network, a healthy status with response time 1 and no error,
    and sends no request; the configured target [system] is such a probe. *)
Theorem local_probe_always_healthy (name : string) (startTime : Z) (x : Exchange) :
  get SERVICES "system" = Str "local"
  /\ exists s,
       checkService name (Str "local") startTime x = (Ok s, [])
       /\ status s = healthy /\ responseTime s = 1 /\ error s = None.
Proof.
  split; [reflexivity|]. eexists. split; [reflexivity|]. simpl. auto.
Qed.

Section Join.

Context {A : Type}.
Variable vals : list A.

(** When every promise is fulfilled, settling them in any order stores
    each value in the slot of its own index. *)
Lemma settle_fulfilled (order : list nat) (slots : list (option A)) :
  length slots = length vals ->
  exists slots',
    settle (Ok <$> vals) order slots = Ok slots'
    /\ forall i, slots' !! i
                 = if decide (i ∈ order) then Some <$> vals !! i else slots !! i.
Proof.
  revert slots. induction order as [|i0 rest IH]; intros slots Hlen.
  - exists slots. split; [reflexivity|]. intros i.
    destruct (decide (i ∈ [])) as [Hin|]; [inversion Hin|reflexivity].
  - simpl. rewrite list_lookup_fmap.
    destruct (vals !! i0) as [v|] eqn:Hv; simpl.
    + destruct (IH (<[i0 := Some v]> slots)) as (slots' & Hrun & Hlook).
      { rewrite length_insert. exact Hlen. }
      exists slots'. split; [exact Hrun|]. intros i. rewrite Hlook.
      destruct (decide (i ∈ rest)) as [Hin|Hnin].
      * rewrite decide_True by (right; exact Hin). reflexivity.
      * destruct (decide (i = i0)) as [->|Hne].
        -- rewrite decide_True by left. rewrite Hv.
           apply list_lookup_insert_eq. rewrite Hlen.
           apply lookup_lt_Some in Hv. exact Hv.
        -- rewrite decide_False by (intros Hin; apply elem_of_cons in Hin;
                                    destruct Hin; contradiction).
           apply list_lookup_insert_ne. congruence.
    + destruct (IH slots Hlen) as (slots' & Hrun & Hlook).
      exists slots'. split; [exact Hrun|]. intros i. rewrite Hlook.
      destruct (decide (i ∈ rest)) as [Hin|Hnin].
      * rewrite decide_True by (right; exact Hin). reflexivity.
      * destruct (decide (i = i0)) as [->|Hne].
        -- rewrite decide_True by left. rewrite Hv. simpl.
           apply lookup_ge_None. rewrite Hlen. apply lookup_ge_None. exact Hv.
        -- rewrite decide_False by (intros Hin; apply elem_of_cons in Hin;
                                    destruct Hin; contradiction).
           reflexivity.
Qed.

(** [Promise.all] of fulfilled promises yields their values in input
    order, whatever the order in which they settle. *)
Lemma Promise_all_fulfilled (order : list nat) :
  order ≡ₚ seq 0 (length vals) ->
  Promise_all (Ok <$> vals) order = Some (Ok vals).
Proof.
  intros Hperm. unfold Promise_all. rewrite length_fmap.
  destruct (settle_fulfilled order (replicate (length vals) None))
    as (slots' & -> & Hlook); [apply length_replicate|].
  assert (Hs : slots' = Some <$> vals).
  { apply list_eq. intros i. rewrite Hlook, list_lookup_fmap.
    destruct (decide (i ∈ order)) as [Hin|Hnin]; [reflexivity|].
    assert (Hge : (length vals <= i)%nat).
    { destruct (Nat.le_gt_cases (length vals) i) as [|Hlt]; [assumption|].
      exfalso. apply Hnin. rewrite Hperm. apply elem_of_seq. lia. }
    rewrite (proj1 (lookup_replicate_None _ _ _) Hge).
    symmetry. rewrite (proj2 (lookup_ge_None vals i) Hge). reflexivity. }
  rewrite Hs, mapM_fmap_Some by reflexivity. reflexivity.
Qed.

(** While a promise has not settled, [Promise.all] stays pending. *)
Lemma Promise_all_pending (order : list nat) (i : nat) :
  (i < length vals)%nat -> i ∉ order ->
  Promise_all (Ok <$> vals) order = None.
Proof.
  intros Hi Hnin. unfold Promise_all. rewrite length_fmap.
  destruct (settle_fulfilled order (replicate (length vals) None))
    as (slots' & -> & Hlook); [apply length_replicate|].
  assert (Hn : mapM id slots' = None).
  { apply mapM_None. apply Exists_exists. exists None. split; [|reflexivity].
    apply list_elem_of_lookup. exists i. rewrite Hlook.
    rewrite decide_False by assumption. apply lookup_replicate_2. exact Hi. }
  rewrite Hn. reflexivity.
Qed.

End Join.

Section Aggregation.

Lemma imap_fulfilled {E B : Type} (f : nat -> E -> result B) (l : list E) :
  (forall i e, exists v, f i e = Ok v) ->
  exists vals,
    imap f l = Ok <$> vals
    /\ length vals = length l
    /\ forall i e, l !! i = Some e -> exists v, vals !! i = Some v /\ f i e = Ok v.
Proof.
  revert f. induction l as [|e0 l IH]; intros f Hf.
  - exists []. repeat split. intros i e Hi. discriminate.
  - destruct (Hf 0%nat e0) as [v0 Hv0].
    destruct (IH (f ∘ S)) as (vals & Hmap & Hlen & Hlook).
    { intros i e. apply Hf. }
    exists (v0 :: vals). simpl. rewrite Hv0, Hmap, Hlen.
    repeat split. intros [|i] e Hi; simpl in *.
    + injection Hi as <-. eauto.
    + apply (Hlook i e Hi).
Qed.

Variables (services : object) (startTime : Z) (net : Network).

(** The probes of one cycle all settle, the one at position [i] with the
    status of the target configured at position [i]. *)
Lemma probes_settle :
  exists checks,
    probes services startTime net = Ok <$> checks
    /\ length checks = length services
    /\ forall i name url, services !! i = Some (name, url) ->
         exists s, checks !! i = Some s
                   /\ fst (checkService name (Str url) startTime (net i)) = Ok s
                   /\ Dashboard.name s = name.
Proof.
  unfold probes, Object_entries.
  destruct (imap_fulfilled
              (fun i '(name, url) => fst (checkService name (Str url) startTime (net i)))
              services) as (checks & Hmap & Hlen & Hlook).
  { intros i [name url].
    destruct (checkService_settles name startTime (net i) url) as (s & sent & -> & _).
    eauto. }
  exists checks. split; [exact Hmap|]. split; [exact Hlen|].
  intros i name url Hi. destruct (Hlook i _ Hi) as (s & Hs & Hc).
  exists s. split; [exact Hs|]. split; [exact Hc|].
  destruct (checkService_settles name startTime (net i) url) as (s' & sent & Hs' & Hn & _).
  rewrite Hs' in Hc. simpl in Hc. congruence.
Qed.

Lemma probes_names (checks : list ServiceStatus) :
  length checks = length services ->
  (forall i name url, services !! i = Some (name, url) ->
     exists s, checks !! i = Some s /\ Dashboard.name s = name) ->
  Dashboard.name <$> checks = services.*1.
Proof.
  intros Hlen Hlook. apply list_eq. intros i. rewrite !list_lookup_fmap.
  destruct (services !! i) as [[name url]|] eqn:Hi.
  - destruct (Hlook i name url Hi) as (s & -> & <-). reflexivity.
  - apply lookup_ge_None in Hi. rewrite <- Hlen in Hi.
    apply lookup_ge_None in Hi. rewrite Hi. reflexivity.
Qed.

End Aggregation.

Section Cycle.

Variables (services : object) (os : Os) (startTime : Z) (net : Network).
Variables (order : list nat) (now : Z) (systemMetrics : SystemMetrics).

(** Once the metrics are collected and every probe has settled, the
    handler replies with a snapshot whose services are the settled probes,
    position by position. *)
Lemma api_status_joined :
  getSystemMetrics os = Ok systemMetrics ->
  order ≡ₚ seq 0 (length services) ->
  exists snapshot,
    api_status services os startTime net order now = Some (Json 200 snapshot)
    /\ system snapshot = systemMetrics
    /\ length (Dashboard.services snapshot) = length services
    /\ forall i name url, services !! i = Some (name, url) ->
         exists s, Dashboard.services snapshot !! i = Some s
                   /\ fst (checkService name (Str url) startTime (net i)) = Ok s
                   /\ Dashboard.name s = name.
Proof.
  intros Hm Hperm. unfold api_status. rewrite Hm.
  destruct (probes_settle services startTime net) as (checks & -> & Hlen & Hlook).
  rewrite Promise_all_fulfilled by (rewrite Hlen; exact Hperm).
  eexists. split; [reflexivity|]. simpl. auto.
Qed.

End Cycle.

(** C4: when the system metrics are collected, the snapshot of one cycle
    holds one service status per configured target, the status at each
    position being that of the target configured at that position, for every
    order in which the probes complete. *)
Theorem api_status_services_in_order (services : object) (os : Os) (startTime : Z)
    (net : Network) (order : list nat) (now : Z) (systemMetrics : SystemMetrics) :
  getSystemMetrics os = Ok systemMetrics ->
  order ≡ₚ seq 0 (length services) ->
  exists snapshot,
    api_status services os startTime net order now = Some (Json 200 snapshot)
    /\ length (Dashboard.services snapshot) = length services
    /\ Dashboard.name <$> Dashboard.services snapshot = services.*1
    /\ forall i name url, services !! i = Some (name, url) ->
         exists s, Dashboard.services snapshot !! i = Some s
                   /\ fst (checkService name (Str url) startTime (net i)) = Ok s.
Proof.
  intros Hm Hperm.
  destruct (api_status_joined services os startTime net order now systemMetrics
              Hm Hperm) as (snapshot & Hs & _ & Hlen & Hlook).
  exists snapshot. split; [exact Hs|]. split; [exact Hlen|]. split.
  - apply probes_names; [exact Hlen|].
    intros i name url Hi. destruct (Hlook i name url Hi) as (s & Hsi & _ & Hn). eauto.
  - intros i name url Hi. destruct (Hlook i name url Hi) as (s & Hsi & Hc & _). eauto.
Qed.

Lemma api_status_services_in_order_witness :
  (exists systemMetrics, getSystemMetrics server = Ok systemMetrics)
  /\ [2; 0; 3; 1]%nat ≡ₚ seq 0 (length SERVICES)
  /\ exists snapshot,
       api_status SERVICES server 1000 allDown [2; 0; 3; 1]%nat 1010
       = Some (Json 200 snapshot)
       /\ Dashboard.name <$> Dashboard.services snapshot
          = ["ollama-api"; "super-product"; "kimi-integration"; "system"]%string.
Proof.
  assert (Hp : [2; 0; 3; 1]%nat ≡ₚ seq 0 (length SERVICES)).
  { simpl. apply (Permutation_cons_app [0%nat; 1%nat] [3%nat]). simpl.
    apply perm_skip. apply perm_swap. }
  split; [eexists; reflexivity|]. split; [exact Hp|].
  destruct (api_status_services_in_order SERVICES server 1000 allDown
              [2; 0; 3; 1]%nat 1010 _ eq_refl Hp) as (snapshot & Hs & _ & Hn & _).
  exists snapshot. split; [exact Hs|exact Hn].
Defined.

Section Metrics.

(** The only query of [getSystemMetrics] that can throw is [statfsSync]. *)
Lemma getSystemMetrics_throws (os : Os) (e : string) :
  getSystemMetrics os = Throw e <->
  statfsSync os (if String.eqb (os_platform os) "darwin"
                 then "/System/Volumes/Data" else "/")%string = Throw e.
Proof.
  unfold getSystemMetrics, bind.
  destruct (statfsSync os _); split; intros H; try discriminate; congruence.
Qed.

End Metrics.

(** C5, as stated, fails: when the disk query of the metric collection
    throws, the handler answers with a 500 error payload, not with a
    snapshot. *)
Lemma statfs_failure_is_error_500 :
  ~ (forall (os : Os) (net : Network) (order : list nat),
       order ≡ₚ seq 0 (length SERVICES) ->
       exists snapshot,
         api_status SERVICES os 1000 net order 1010 = Some (Json 200 snapshot)).
Proof.
  intros H.
  destruct (H serverNoStatfs allUp [0; 1; 2; 3]%nat) as [snapshot Hs]; [reflexivity|].
  vm_compute in Hs. discriminate.
Qed.

(** C5, amended: once all probes have settled the handler always replies.
    When the metric collection succeeds the reply is a snapshot, whatever
    probes fail: a probe whose request is rejected appears in it as a
    critical status carrying the error.  When the metric collection throws,
    the reply is the 500 error payload with the error's message. *)
Theorem api_status_absorbs_probe_failures (services : object) (os : Os)
    (startTime : Z) (net : Network) (order : list nat) (now : Z) :
  order ≡ₚ seq 0 (length services) ->
  match getSystemMetrics os with
  | Ok systemMetrics =>
      exists snapshot,
        api_status services os startTime net order now = Some (Json 200 snapshot)
        /\ system snapshot = systemMetrics
        /\ length (Dashboard.services snapshot) = length services
        /\ forall i name url message,
             services !! i = Some (name, url) -> url <> "local"%string ->
             axios_get (net i) = Throw message ->
             exists s, Dashboard.services snapshot !! i = Some s
                       /\ Dashboard.name s = name /\ status s = critical
                       /\ error s = Some message
  | Throw e => api_status services os startTime net order now = Some (JsonError 500 e)
  end.
Proof.
  intros Hperm. destruct (getSystemMetrics os) as [systemMetrics|e] eqn:Hm.
  - destruct (api_status_joined services os startTime net order now
                systemMetrics Hm Hperm) as (snapshot & Hs & Hsys & Hlen & Hlook).
    exists snapshot. split; [exact Hs|]. split; [exact Hsys|].
    split; [exact Hlen|].
    intros i name url message Hi Hu Hx.
    destruct (Hlook i name url Hi) as (s & Hsi & Hc & _).
    exists s. split; [exact Hsi|].
    assert (Hl : strict_eq (Str url) "local" = false).
    { destruct (strict_eq (Str url) "local") eqn:E; [|reflexivity].
      apply strict_eq_local in E. contradiction. }
    destruct (checkService_rejected name startTime (net i) url message Hl Hx)
      as (s' & Hs' & Hn & Hst & He & _).
    rewrite Hs' in Hc. simpl in Hc. injection Hc as <-. auto.
  - unfold api_status. rewrite Hm. reflexivity.
Qed.

Lemma api_status_absorbs_probe_failures_witness :
  [2; 0; 3; 1]%nat ≡ₚ seq 0 (length SERVICES)
  /\ api_status SERVICES serverNoStatfs 1000 allDown [2; 0; 3; 1]%nat 1010
     = Some (JsonError 500 "ENOENT: no such file or directory, statfs '/'").
Proof.
  assert (Hp : [2; 0; 3; 1]%nat ≡ₚ seq 0 (length SERVICES)).
  { simpl. apply (Permutation_cons_app [0%nat; 1%nat] [3%nat]). simpl.
    apply perm_skip. apply perm_swap. }
  split; [exact Hp|].
  exact (api_status_absorbs_probe_failures SERVICES serverNoStatfs 1000 allDown
           [2; 0; 3; 1]%nat 1010 Hp).
Defined.

Section HealthEndpoint.

Variables (startTime : Z) (x : Exchange).

(** A configured name is answered with the status of that service. *)
Lemma api_health_configured (service url : string) :
  own SERVICES service = Some url ->
  exists s sent,
    api_health SERVICES service startTime x = (Json 200 s, sent)
    /\ checkService service (Str url) startTime x = (Ok s, sent)
    /\ Dashboard.name s = service.
Proof.
  intros Hown. unfold api_health, get. rewrite Hown.
  assert (Ht : truthy (Str url) = true).
  { simpl in Hown.
    repeat match type of Hown with
           | (if ?b then _ else _) = _ => destruct b
           end; try discriminate; injection Hown as <-; reflexivity. }
  rewrite Ht. simpl negb. cbv iota.
  destruct (checkService_settles service startTime x url) as (s & sent & Hs & Hn & _).
  rewrite Hs. eauto.
Qed.

(** A name that is neither configured nor a member of [Object.prototype]
    is answered with 404, and no request is sent. *)
Lemma api_health_unknown (service : string) :
  own SERVICES service = None ->
  existsb (String.eqb service) objectPrototypeKeys = false ->
  api_health SERVICES service startTime x = (JsonError 404 "Service not found", []).
Proof.
  intros Hown Hproto. unfold api_health, get. rewrite Hown, Hproto. reflexivity.
Qed.

End HealthEndpoint.

(** C7 on the code: the name [constructor] is not a configured target, yet
    [SERVICES['constructor']] is the inherited constructor function, which
    is truthy; the handler sends no 404 but calls [checkService], which
    hands the function to [axios.get] and then fails on [url.replace], so
    the handler ends in a rejection instead of a reply. *)
Theorem inherited_name_is_not_404 (startTime : Z) (x : Exchange) :
  own SERVICES "constructor" = None
  /\ api_health SERVICES "constructor" startTime x
     = (Unhandled "url.replace is not a function", [Inherited "constructor"]).
Proof.
  split; [reflexivity|].
  unfold api_health, checkService. simpl.
  unfold bind. destruct (axios_get x); reflexivity.
Qed.

Section Examples.

Example unknown_service_404 :
  api_health SERVICES "ollama" 1000 answered = (JsonError 404 "Service not found", []).
Proof. reflexivity. Qed.

Example healthy_service :
  api_health SERVICES "ollama-api" 1000 answered
  = (Json 200 {| name := "ollama-api"; url := "localhost:3002/health";
                 status := healthy; responseTime := 12;
                 version := Some "2.1.0"%string; error := None;
                 timestamp := 1012; emoji := "🦙" |},
     [Str "http://localhost:3002/health"]).
Proof. reflexivity. Qed.

(** The handler waits for the last probe. *)
Example status_waits_for_all :
  api_status SERVICES server 1000 allUp [2; 0; 3]%nat 1010 = None.
Proof. reflexivity. Qed.

End Examples.

End DashboardProofs.

(** ** Further properties of the periodic monitor *)

Module MonitorExtras.
Import Js RealMonitor Rules Report MonitorProofs.

Section Markers.

Lemma avoids_append (c : ascii) (s1 s2 : string) :
  avoids c (s1 ++ s2) = avoids c s1 && avoids c s2.
Proof.
  induction s1 as [|a s1 IH]; simpl; [reflexivity|].
  rewrite IH. apply andb_assoc.
Qed.

Lemma avoids_uint (d : Decimal.uint) :
  avoids markerByte (NilEmpty.string_of_uint d) = true.
Proof. induction d; simpl; auto. Qed.

Lemma avoids_show_int (z : Z) : avoids markerByte (show_int z) = true.
Proof.
  unfold show_int, NilZero.string_of_int.
  destruct (Z.to_int z) as [d|d]; unfold NilZero.string_of_uint;
    destruct d; simpl; auto using avoids_uint.
Qed.

Lemma avoids_show_num (a : num) : avoids markerByte (show_num a) = true.
Proof. destruct a; [reflexivity|apply avoids_show_int]. Qed.

Lemma avoids_show_hundredths (c : Z) :
  avoids markerByte (show_hundredths c) = true.
Proof.
  unfold show_hundredths.
  repeat first [ rewrite avoids_append | rewrite avoids_show_int
               | match goal with |- context [if ?b then _ else _] => destruct b end
               | reflexivity ].
Qed.

(** A text without the marker byte contains neither severity marker. *)
Lemma avoids_includes (hay needle : string) :
  avoids markerByte hay = true ->
  includes hay (String markerByte needle) = false.
Proof.
  induction hay as [|a hay IH]; [reflexivity|].
  cbn [avoids includes String.prefix].
  intros H. apply andb_prop in H as [Ha Hr].
  rewrite (IH Hr), orb_false_r.
  destruct (ascii_dec markerByte a) as [<-|]; [|reflexivity].
  rewrite Ascii.eqb_refl in Ha. discriminate.
Qed.

Lemma untagged (text : string) :
  avoids markerByte text = true ->
  isCritical text = false /\ isWarning text = false.
Proof. intros H. split; apply (avoids_includes _ _ H). Qed.

End Markers.

Section Collected.

Variables (ts : string) (os : Os).

Lemma getRealSystemMetrics_cases :
  (exists m, collect ts os = Ok m /\ getRealSystemMetrics ts os = (m, []))
  \/ (exists e, collect ts os = Throw e
                /\ getRealSystemMetrics ts os
                   = (getFallbackMetrics ts, ["Error getting real metrics: " ++ e]%string)).
Proof.
  unfold getRealSystemMetrics. destruct (collect ts os) as [m|e]; eauto.
Qed.

(** What the OpenClaw query contributes to collected metrics. *)
Lemma collect_openclawStatus (m : Metrics) :
  collect ts os = Ok m ->
  openclawStatus m
  = match exec_openclaw os with
    | Ok out => if num_gt (parseInt (trim out)) 0 then "RUNNING" else "STOPPED"
    | Throw _ => "ERROR"
    end%string.
Proof. collect_returns os. intros [= <-]. reflexivity. Qed.

Lemma collect_timestamp (m : Metrics) : collect ts os = Ok m -> timestamp m = ts.
Proof. collect_returns os. intros [= <-]. reflexivity. Qed.

Lemma getRealSystemMetrics_timestamp :
  timestamp (fst (getRealSystemMetrics ts os)) = ts.
Proof.
  destruct getRealSystemMetrics_cases as [(m & Hm & ->)|(e & _ & ->)]; simpl;
    [exact (collect_timestamp m Hm)|reflexivity].
Qed.

(** The status string of the metrics a run works with carries no severity
    marker. *)
Lemma getRealSystemMetrics_openclaw_plain :
  avoids markerByte (openclawStatus (fst (getRealSystemMetrics ts os))) = true.
Proof.
  destruct getRealSystemMetrics_cases as [(m & Hm & ->)|(e & _ & ->)]; simpl;
    [|reflexivity].
  rewrite (collect_openclawStatus m Hm).
  destruct (exec_openclaw os) as [out|]; [|reflexivity].
  destruct (num_gt _ 0); reflexivity.
Qed.

End Collected.



Section Severity.

Variable m : Metrics.
Hypothesis plain : avoids markerByte (openclawStatus m) = true.

Lemma cpuRule_untagged (alert : string) :
  In alert (cpuRule m) -> avoids markerByte alert = true.
Proof.
  unfold cpuRule. destruct (cpuLoad m >? 500); [|intros []].
  intros [<-|[]]. now rewrite !avoids_append, avoids_show_hundredths.
Qed.

Lemma openclawRule_untagged (alert : string) :
  In alert (openclawRule m) -> avoids markerByte alert = true.
Proof.
  unfold openclawRule. destruct (String.eqb _ _); [intros []|].
  intros [<-|[]]. now rewrite avoids_append, plain.
Qed.

Lemma diskRule_untagged (alert : string) :
  In alert (diskRule m) -> avoids markerByte alert = true.
Proof.
  unfold diskRule. destruct (diskUsageGB m >? 200); [|intros []].
  intros [<-|[]]. now rewrite !avoids_append, avoids_show_int.
Qed.

Lemma processRule_untagged (alert : string) :
  In alert (processRule m) -> avoids markerByte alert = true.
Proof.
  unfold processRule. destruct (num_gt _ 500); [|intros []].
  intros [<-|[]]. now rewrite avoids_append, avoids_show_num.
Qed.


(** The two memory alerts carry exactly their own marker. *)
Lemma critical_text_not_warning (rest : string) :
  avoids markerByte rest = true ->
  isWarning ("🔴 CRITICAL: Memory usage: " ++ rest) = false.
Proof.
  intros H. transitivity (includes rest "🟡 WARNING"); [reflexivity|].
  exact (avoids_includes _ _ H).
Qed.

Lemma warning_text_not_critical (rest : string) :
  avoids markerByte rest = true ->
  isCritical ("🟡 WARNING: High memory usage: " ++ rest) = false.
Proof.
  intros H. transitivity (includes rest "🔴 CRITICAL"); [reflexivity|].
  exact (avoids_includes _ _ H).
Qed.

Lemma memoryRule_tags (alert : string) :
  In alert (memoryRule m) ->
  isCritical alert = (memoryUsage m >? 95)
  /\ isWarning alert = negb (memoryUsage m >? 95).
Proof.
  unfold memoryRule. destruct (memoryUsage m >? 95).
  - intros [<-|[]]. split; [reflexivity|].
    apply critical_text_not_warning.
    now rewrite !avoids_append, !avoids_show_int.
  - destruct (memoryUsage m >? 90); [|intros []].
    intros [<-|[]]. split; [|reflexivity].
    apply warning_text_not_critical.
    now rewrite !avoids_append, !avoids_show_int.
Qed.

Lemma existsb_isCritical :
  existsb isCritical (checkRealAlerts m) = (memoryUsage m >? 95).
Proof.
  rewrite checkRealAlerts_rules, !existsb_app.
  assert (Hno : forall l, (forall a, In a l -> avoids markerByte a = true) ->
                          existsb isCritical l = false).
  { intros l Hl. destruct (existsb isCritical l) eqn:E; [|reflexivity].
    apply existsb_exists in E as (a & Hin & Ha).
    rewrite (proj1 (untagged a (Hl a Hin))) in Ha. discriminate. }
  rewrite (Hno _ cpuRule_untagged), (Hno _ openclawRule_untagged),
    (Hno _ diskRule_untagged), (Hno _ processRule_untagged).
  rewrite !orb_false_r. simpl.
  destruct (memoryRule m) as [|alert rest] eqn:E.
  - unfold memoryRule in E. destruct (memoryUsage m >? 95); [discriminate|reflexivity].
  - assert (Hin : In alert (memoryRule m)) by (rewrite E; now left).
    assert (Hrest : rest = []).
    { unfold memoryRule in E.
      destruct (memoryUsage m >? 95); [congruence|].
      destruct (memoryUsage m >? 90); congruence. }
    subst rest. simpl. rewrite orb_false_r.
    exact (proj1 (memoryRule_tags alert Hin)).
Qed.

End Severity.

Section Quiet.

Variable m : Metrics.

Lemma cpuRule_nil : cpuRule m = [] <-> cpuLoad m <= 500.
Proof.
  unfold cpuRule. destruct (Z.gtb_spec (cpuLoad m) 500);
    split; intros Hx; try discriminate; try reflexivity; lia.
Qed.

Lemma memoryRule_nil : memoryRule m = [] <-> memoryUsage m <= 90.
Proof.
  unfold memoryRule.
  destruct (Z.gtb_spec (memoryUsage m) 95), (Z.gtb_spec (memoryUsage m) 90);
    split; intros Hx; try discriminate; try reflexivity; lia.
Qed.

Lemma openclawRule_nil : openclawRule m = [] <-> openclawStatus m = "RUNNING"%string.
Proof.
  unfold openclawRule. destruct (String.eqb_spec (openclawStatus m) "RUNNING");
    split; intros Hx; try discriminate; try reflexivity; congruence.
Qed.

Lemma diskRule_nil : diskRule m = [] <-> diskUsageGB m <= 200.
Proof.
  unfold diskRule. destruct (Z.gtb_spec (diskUsageGB m) 200);
    split; intros Hx; try discriminate; try reflexivity; lia.
Qed.

Lemma processRule_nil : processRule m = [] <-> num_gt (processCount m) 500 = false.
Proof.
  unfold processRule. destruct (num_gt (processCount m) 500);
    split; intros Hx; try discriminate; reflexivity.
Qed.

(** No alert is raised exactly when no rule fires. *)
Lemma checkRealAlerts_nil :
  checkRealAlerts m = [] <->
  cpuLoad m <= 500 /\ memoryUsage m <= 90 /\ openclawStatus m = "RUNNING"%string
  /\ diskUsageGB m <= 200 /\ num_gt (processCount m) 500 = false.
Proof.
  rewrite checkRealAlerts_rules, !app_nil.
  rewrite cpuRule_nil, memoryRule_nil, openclawRule_nil, diskRule_nil, processRule_nil.
  reflexivity.
Qed.

End Quiet.

(** X1: the status a run reports, read off the metrics it worked with:
    CRITICAL exactly when the rounded memory percentage exceeds 95 (no other
    rule can raise it), HEALTHY exactly when no rule fires, WARNING in every
    other case; the alerts of earlier checks in the log play no part. *)
Theorem status_by_thresholds (t : Times) (os : Os) (file : LogFile) :
  let m := fst (getRealSystemMetrics (t_metrics t) os) in
  let status := run_status (snd (runRealMonitoring t os file)) in
  let quiet := cpuLoad m <= 500 /\ memoryUsage m <= 90
               /\ openclawStatus m = "RUNNING"%string
               /\ diskUsageGB m <= 200 /\ num_gt (processCount m) 500 = false in
  (status = Some CRITICAL <-> 95 < memoryUsage m)
  /\ (status = Some HEALTHY <-> quiet)
  /\ (status = Some WARNING <-> memoryUsage m <= 95 /\ ~ quiet).
Proof.
  intros m status quiet.
  destruct (runRealMonitoring_success t os file) as (file' & summary & Hrun & Hs).
  assert (Hst : status = Some (systemStatus summary))
    by (unfold status; rewrite Hrun; reflexivity).
  fold m in Hs. rewrite Hst, Hs. clear Hrun Hs Hst.
  pose proof (checkRealAlerts_nil m) as Hnil. fold quiet in Hnil.
  pose proof (existsb_isCritical m
                (getRealSystemMetrics_openclaw_plain (t_metrics t) os)) as Hc.
  fold m in Hc.
  destruct (checkRealAlerts m) as [|alert rest] eqn:E.
  - assert (Hq : quiet) by (apply Hnil; reflexivity).
    assert (Hm : memoryUsage m <= 90) by (destruct Hq as (_ & Hm & _); exact Hm).
    split; [|split].
    + split; [discriminate|lia].
    + split; [intros _; exact Hq|reflexivity].
    + split; [discriminate|intros [_ Hn]; contradiction].
  - assert (Hq : ~ quiet) by (intros Hq; apply Hnil in Hq; discriminate).
    rewrite Hc. destruct (Z.gtb_spec (memoryUsage m) 95) as [Hgt|Hle].
    + split; [|split].
      * split; [lia|reflexivity].
      * split; [discriminate|intros Hn; contradiction].
      * split; [discriminate|intros [Hn _]; lia].
    + split; [|split].
      * split; [discriminate|lia].
      * split; [discriminate|intros Hn; contradiction].
      * split; [intros _; split; [lia|exact Hq]|reflexivity].
Qed.


(** X3: a run whose metric collection throws works with the fallback
    metrics, whose disk figure is above the disk threshold: it logs exactly
    the disk alert and reports WARNING. *)
Theorem failed_collection_reports_WARNING (t : Times) (os : Os) (file : LogFile)
    (e : string) :
  collect (t_metrics t) os = Throw e ->
  run_alerts (snd (runRealMonitoring t os file)) = ["High disk usage: 250GB"%string]
  /\ run_status (snd (runRealMonitoring t os file)) = Some WARNING.
Proof.
  intros He.
  destruct (runRealMonitoring_success t os file) as (file' & summary & Hrun & Hs).
  assert (Hget : fst (getRealSystemMetrics (t_metrics t) os)
                 = getFallbackMetrics (t_metrics t))
    by (unfold getRealSystemMetrics; rewrite He; reflexivity).
  rewrite Hget in Hrun, Hs. rewrite Hrun. simpl. split; [reflexivity|].
  rewrite Hs. reflexivity.
Qed.

Lemma failed_collection_reports_WARNING_witness :
  collect (t_metrics times) hostNoPs = Throw "Command failed: ps aux | wc -l"
  /\ run_status (snd (runRealMonitoring times hostNoPs None)) = Some WARNING.
Proof.
  split; [reflexivity|].
  exact (proj2 (failed_collection_reports_WARNING times hostNoPs None _ eq_refl)).
Defined.

Section Bookkeeping.

Lemma initializeLogs_startingLogs (now : string) (file : LogFile) :
  initializeLogs now file = Some (startingLogs now file).
Proof. destruct file; reflexivity. Qed.

(** The log a run leaves behind and the summary it returns. *)
Lemma run_log (t : Times) (os : Os) (file : LogFile) :
  let m := fst (getRealSystemMetrics (t_metrics t) os) in
  let alerts := checkRealAlerts m in
  let logs0 := startingLogs (t_init t) file in
  let check :=
    {| c_timestamp := t_metrics t;
       c_metrics := m;
       c_alerts := if decide (alerts = []) then None else Some alerts |} in
  exists summary,
    runRealMonitoring t os file
    = (Some {| startTime := startTime logs0;
               checks := kept (checks logs0) check;
               totalChecks := totalChecks logs0 + 1;
               totalAlerts := totalAlerts logs0 + Z.of_nat (length alerts);
               systemUptime := systemUptime logs0 |},
       snd (getRealSystemMetrics (t_metrics t) os),
       Success summary m alerts)
    /\ s_timestamp summary = t_summary t
    /\ s_totalChecks summary = totalChecks logs0 + 1
    /\ s_totalAlerts summary = totalAlerts logs0 + Z.of_nat (length alerts)
    /\ lastCheck summary = Some (t_metrics t).
Proof.
  intros m alerts logs0 check.
  unfold runRealMonitoring. rewrite initializeLogs_startingLogs. fold logs0.
  pose proof (getRealSystemMetrics_timestamp (t_metrics t) os) as Hts.
  fold m in Hts. subst alerts.
  destruct (getRealSystemMetrics (t_metrics t) os) as [metrics errs] eqn:Hg.
  simpl in m. subst m. simpl.
  unfold logCheck, readLogs, bind.
  assert (Hk : (if Z.of_nat (length (checks logs0 ++ [check])) >? 100
                then slice (checks logs0 ++ [check]) (-100)
                else checks logs0 ++ [check]) = kept (checks logs0) check).
  { unfold kept.
    destruct (Z.gtb_spec (Z.of_nat (length (checks logs0 ++ [check]))) 100).
    - apply slice_last_100.
    - replace (length _ - 100)%nat with 0%nat by lia. reflexivity. }
  assert (Hc : {| c_timestamp := timestamp metrics; c_metrics := metrics;
                  c_alerts := if Z.of_nat (length (checkRealAlerts metrics)) >? 0
                              then Some (checkRealAlerts metrics) else None |}
               = check).
  { unfold check. rewrite Hts. f_equal.
    destruct (checkRealAlerts metrics); reflexivity. }
  rewrite Hc, Hk.
  unfold generateSummary, readLogs, bind. eexists. split; [reflexivity|].
  simpl. repeat split.
  rewrite lookup_last, kept_last. reflexivity.
Qed.

End Bookkeeping.

(** X4: what one run does to the log and reports about it: the start time
    and the older entries are kept (up to the cap), the new check is the last
    entry, the first counter grows by one and the second by the number of
    alerts, and the summary carries the new counters and the timestamp of
    this check. *)
Theorem run_bookkeeping (t : Times) (os : Os) (file : LogFile) :
  let logs0 := startingLogs (t_init t) file in
  let alerts := cycleAlerts (t, os) in
  exists logs' summary metrics errs,
    runRealMonitoring t os file = (Some logs', errs, Success summary metrics alerts)
    /\ startTime logs' = startTime logs0
    /\ (exists evicted check,
          checks logs0 ++ [check] = evicted ++ checks logs'
          /\ c_timestamp check = t_metrics t
          /\ last (checks logs') = Some check)
    /\ totalChecks logs' = totalChecks logs0 + 1
    /\ totalAlerts logs' = totalAlerts logs0 + Z.of_nat (length alerts)
    /\ s_totalChecks summary = totalChecks logs'
    /\ s_totalAlerts summary = totalAlerts logs'
    /\ lastCheck summary = Some (t_metrics t).
Proof.
  intros logs0 alerts.
  destruct (run_log t os file) as (summary & Hrun & _ & Hn & Ha & Hl).
  eexists _, summary, _, _. split; [exact Hrun|]. simpl.
  split; [reflexivity|]. split.
  - eexists (take _ _), _. split; [symmetry; apply take_drop|].
    split; [reflexivity|apply kept_last].
  - auto.
Qed.

Section Runs.

Lemma length_kept (log : list Check) (check : Check) :
  length (kept log check) = Nat.min (length log + 1) 100.
Proof. unfold kept. rewrite length_drop, length_app. simpl. lia. Qed.

Lemma run_file (t : Times) (os : Os) (file : LogFile) :
  let logs0 := startingLogs (t_init t) file in
  exists logs',
    fst (fst (runRealMonitoring t os file)) = Some logs'
    /\ startTime logs' = startTime logs0
    /\ totalChecks logs' = totalChecks logs0 + 1
    /\ totalAlerts logs' = totalAlerts logs0 + Z.of_nat (length (cycleAlerts (t, os)))
    /\ length (checks logs') = Nat.min (length (checks logs0) + 1) 100.
Proof.
  intros logs0. destruct (run_log t os file) as (summary & Hrun & _).
  rewrite Hrun. eexists. split; [reflexivity|]. simpl.
  repeat split. apply length_kept.
Qed.

(** Repeated runs on an existing log within the cap. *)
Lemma runs_existing (cycles : list (Times * Os)) (logs : Logs) :
  (length (checks logs) <= 100)%nat ->
  exists logs',
    runs cycles (Some logs) = Some logs'
    /\ startTime logs' = startTime logs
    /\ totalChecks logs' = totalChecks logs + Z.of_nat (length cycles)
    /\ totalAlerts logs'
       = totalAlerts logs + Z.of_nat (sum_list_with (fun c => length (cycleAlerts c)) cycles)
    /\ length (checks logs') = Nat.min (length (checks logs) + length cycles) 100.
Proof.
  revert logs. induction cycles as [|[t os] rest IH]; intros logs Hcap.
  - exists logs. simpl. repeat split; lia.
  - simpl runs.
    destruct (run_file t os (Some logs)) as (logs1 & -> & Hs & Hn & Ha & Hl).
    simpl in Hs, Hn, Ha, Hl.
    destruct (IH logs1) as (logs' & Hruns & Hs' & Hn' & Ha' & Hl'); [lia|].
    exists logs'. split; [exact Hruns|]. split; [congruence|].
    simpl. repeat split; lia.
Qed.

End Runs.

(** X5: the monitor run once per cycle, starting without a log file: the
    log records the start time of the first run, counts every run and every
    alert raised, and retains the checks of the last 100 runs at most. *)
Theorem runs_from_scratch (first : Times * Os) (later : list (Times * Os)) :
  let cycles := first :: later in
  exists logs,
    runs cycles None = Some logs
    /\ startTime logs = t_init (fst first)
    /\ totalChecks logs = Z.of_nat (length cycles)
    /\ totalAlerts logs
       = Z.of_nat (sum_list_with (fun c => length (cycleAlerts c)) cycles)
    /\ length (checks logs) = Nat.min (length cycles) 100.
Proof.
  destruct first as [t os]. simpl.
  destruct (run_file t os None) as (logs1 & -> & Hs & Hn & Ha & Hl).
  simpl in Hs, Hn, Ha, Hl.
  destruct (runs_existing later logs1) as (logs & Hruns & Hs' & Hn' & Ha' & Hl'); [lia|].
  exists logs. split; [exact Hruns|]. split; [congruence|].
  repeat split; lia.
Qed.

Section Figures.

(** Two numbers rounded separately against their sum rounded once. *)
Lemma round_sum (u f t : Z) :
  t = u + f ->
  -1 <= (2 * u + GiB) / (2 * GiB) + (2 * f + GiB) / (2 * GiB)
        - (2 * t + GiB) / (2 * GiB) <= 1.
Proof.
  intros ->.
  change (2 * GiB) with 2147483648. change GiB with 1073741824.
  pose proof (Z.div_mod (2 * u + 1073741824) 2147483648 ltac:(lia)).
  pose proof (Z.mod_pos_bound (2 * u + 1073741824) 2147483648 ltac:(lia)).
  pose proof (Z.div_mod (2 * f + 1073741824) 2147483648 ltac:(lia)).
  pose proof (Z.mod_pos_bound (2 * f + 1073741824) 2147483648 ltac:(lia)).
  pose proof (Z.div_mod (2 * (u + f) + 1073741824) 2147483648 ltac:(lia)).
  pose proof (Z.mod_pos_bound (2 * (u + f) + 1073741824) 2147483648 ltac:(lia)).
  lia.
Qed.

Variables (ts : string) (os : Os) (m : Metrics).
Hypothesis collected : collect ts os = Ok m.

Lemma collect_memory_GB :
  memoryUsedGB m = Math_round (inject_Z (os_totalmem os - os_freemem os) / inject_Z GiB)
  /\ memoryTotalGB m = Math_round (inject_Z (os_totalmem os) / inject_Z GiB)
  /\ memoryFreeGB m = Math_round (inject_Z (os_freemem os) / inject_Z GiB).
Proof. revert collected. collect_returns os. intros [= <-]. auto. Qed.

End Figures.

(** X6: on a host that reports at most its total memory as free, the
    collected memory percentage lies between 0 and 100. *)
Theorem memoryUsage_is_a_percentage (ts : string) (os : Os) (m : Metrics) :
  collect ts os = Ok m ->
  0 < os_totalmem os -> 0 <= os_freemem os <= os_totalmem os ->
  0 <= memoryUsage m <= 100.
Proof.
  intros Hm Ht Hf. rewrite (collect_memoryUsage ts os m Hm).
  rewrite memoryUsageOf_ratio by assumption. split.
  - apply Z.div_pos; lia.
  - assert (H : (200 * (os_totalmem os - os_freemem os) + os_totalmem os)
                / (2 * os_totalmem os) < 101)
      by (apply Z.div_lt_upper_bound; lia).
    lia.
Qed.

Lemma memoryUsage_is_a_percentage_witness :
  collect "t" host951 = Ok (fst (getRealSystemMetrics "t" host951))
  /\ 0 < os_totalmem host951
  /\ 0 <= os_freemem host951 <= os_totalmem host951
  /\ 0 <= memoryUsage (fst (getRealSystemMetrics "t" host951)) <= 100.
Proof.
  assert (H1 : 0 < os_totalmem host951) by reflexivity.
  assert (H2 : 0 <= os_freemem host951 <= os_totalmem host951)
    by (split; discriminate).
  split; [reflexivity|]. split; [exact H1|]. split; [exact H2|].
  exact (memoryUsage_is_a_percentage "t" host951 _ eq_refl H1 H2).
Defined.

(** X7: the three memory figures in GB are rounded separately, so used plus
    free may miss the total, but by one at most. *)
Theorem memory_GB_add_up_within_one (ts : string) (os : Os) (m : Metrics) :
  collect ts os = Ok m ->
  -1 <= memoryUsedGB m + memoryFreeGB m - memoryTotalGB m <= 1.
Proof.
  intros Hm. destruct (collect_memory_GB ts os m Hm) as (-> & -> & ->).
  assert (HG : 0 < GiB) by reflexivity.
  rewrite !Math_round_ratio by assumption.
  apply round_sum. lia.
Qed.

Lemma memory_GB_add_up_within_one_witness :
  collect "t" hostBusy = Ok (fst (getRealSystemMetrics "t" hostBusy))
  /\ -1 <= memoryUsedGB (fst (getRealSystemMetrics "t" hostBusy))
           + memoryFreeGB (fst (getRealSystemMetrics "t" hostBusy))
           - memoryTotalGB (fst (getRealSystemMetrics "t" hostBusy)) <= 1.
Proof.
  split; [reflexivity|].
  exact (memory_GB_add_up_within_one "t" hostBusy _ eq_refl).
Defined.

Section Load.



End Load.



End MonitorExtras.

(** ** Further properties of the dashboard server *)

Module DashboardExtras.
Import Js Dashboard Scenarios Kimi Page DashboardProofs.

Section Probes.

Variables (name : string) (startTime : Z) (x : Exchange).

Lemma replace_absent (s pat rep : string) :
  includes s pat = false -> replace s pat rep = s.
Proof.
  induction s as [|c s IH]; cbn [includes replace]; intros H;
    apply orb_false_elim in H as [Hp Hr]; rewrite Hp; [reflexivity|].
  now rewrite IH.
Qed.

Lemma prefix_append (pat rest : string) : String.prefix pat (pat ++ rest) = true.
Proof.
  induction pat as [|c pat IH]; simpl; [destruct rest; reflexivity|].
  destruct (ascii_dec c c); [exact IH|contradiction].
Qed.

Lemma string_drop_append (pat rest : string) :
  string_drop (String.length pat) (pat ++ rest) = rest.
Proof. induction pat as [|c pat IH]; [destruct rest; reflexivity|exact IH]. Qed.

Lemma replace_prefix (pat rest rep : string) :
  replace (pat ++ rest) pat rep = (rep ++ rest)%string.
Proof.
  assert (H : forall s, replace s pat rep
              = if String.prefix pat s
                then (rep ++ string_drop (String.length pat) s)%string
                else match s with
                     | EmptyString => EmptyString
                     | String c r => String c (replace r pat rep)
                     end) by (intros []; reflexivity).
  rewrite H, prefix_append, string_drop_append. reflexivity.
Qed.

Lemma or_else_nonempty (v : option string) : or_else v "1.0.0" <> ""%string.
Proof.
  unfold or_else. destruct v as [s|]; [|discriminate].
  destruct (String.eqb_spec s ""); [discriminate|assumption].
Qed.

End Probes.

(** X10: every status [checkService] settles with for a configured URL is
    well formed: it carries the name asked for, is healthy or critical,
    holds an error exactly when critical and never an empty version, and
    its timestamp is what [new Date()] read when it was built.  The local
    marker gives a healthy status with response time 1, no version and no
    request; any other URL gives exactly one request, a version exactly
    when healthy, and as response time the second [Date.now()] reading minus
    the first. *)
Theorem checkService_well_formed (name u : string) (startTime : Z) (x : Exchange) :
  exists s sent,
    checkService name (Str u) startTime x = (Ok s, sent)
    /\ Dashboard.name s = name
    /\ (status s = healthy \/ status s = critical)
    /\ (status s = critical <-> error s <> None)
    /\ version s <> Some ""%string
    /\ timestamp s = stamped x
    /\ if String.eqb u "local"
       then sent = [] /\ status s = healthy /\ version s = None
            /\ responseTime s = 1
       else sent = [Str u]
            /\ (status s = healthy <-> version s <> None)
            /\ responseTime s = finished x - startTime.
Proof.
  unfold checkService. simpl strict_eq.
  destruct (String.eqb u "local").
  - eexists _, _. split; [reflexivity|]. simpl.
    repeat split; auto; try discriminate; try tauto.
  - unfold bind, url_replace. destruct (axios_get x) as [v|message];
      (eexists _, _; split; [reflexivity|]; simpl).
    + repeat split; auto; try discriminate; try tauto.
      intros [=H]. exact (or_else_nonempty v H).
    + repeat split; auto; try discriminate; try tauto.
Qed.

(** X11: the URL shown in a status: a URL on [http://localhost:] loses the
    scheme, any URL that does not contain that text is shown unchanged. *)
Theorem checkService_shown_url (name u : string) (startTime : Z) (x : Exchange) :
  u <> "local"%string ->
  exists s,
    fst (checkService name (Str u) startTime x) = Ok s
    /\ (forall rest, u = ("http://localhost:" ++ rest)%string ->
          url s = ("localhost:" ++ rest)%string)
    /\ (includes u "http://localhost:" = false -> url s = u).
Proof.
  intros Hu.
  assert (Hl : strict_eq (Str u) "local" = false).
  { destruct (strict_eq (Str u) "local") eqn:E; [|reflexivity].
    apply strict_eq_local in E. contradiction. }
  unfold checkService. rewrite Hl. unfold bind, url_replace.
  destruct (axios_get x); (eexists; split; [reflexivity|]; cbn [url]; split;
    [intros rest ->; apply replace_prefix|apply replace_absent]).
Qed.

Lemma checkService_shown_url_witness :
  "https://status.example.org/health"%string <> "local"%string
  /\ exists s,
       fst (checkService "web" (Str "https://status.example.org/health") 1000 answered)
       = Ok s
       /\ url s = "https://status.example.org/health"%string.
Proof.
  assert (H : "https://status.example.org/health"%string <> "local"%string)
    by discriminate.
  split; [exact H|].
  destruct (checkService_shown_url "web" _ 1000 answered H) as (s & Hs & _ & Hk).
  exists s. split; [exact Hs|]. apply Hk. reflexivity.
Defined.

Section Barrier.

Context {A : Type}.
Variable vals : list A.

(** [Promise.all] of fulfilled promises is fulfilled as soon as every
    promise has settled, whatever else the settle order holds. *)
Lemma Promise_all_covered (order : list nat) :
  (forall i, (i < length vals)%nat -> i ∈ order) ->
  Promise_all (Ok <$> vals) order = Some (Ok vals).
Proof.
  intros Hall. unfold Promise_all. rewrite length_fmap.
  destruct (settle_fulfilled vals order (replicate (length vals) None))
    as (slots' & -> & Hlook); [apply length_replicate|].
  assert (Hs : slots' = Some <$> vals).
  { apply list_eq. intros i. rewrite Hlook, list_lookup_fmap.
    destruct (decide (i ∈ order)) as [Hin|Hnin]; [reflexivity|].
    assert (Hge : (length vals <= i)%nat).
    { destruct (Nat.le_gt_cases (length vals) i) as [|Hlt]; [assumption|].
      exfalso. apply Hnin, Hall, Hlt. }
    rewrite (proj1 (lookup_replicate_None _ _ _) Hge).
    symmetry. rewrite (proj2 (lookup_ge_None vals i) Hge). reflexivity. }
  rewrite Hs, mapM_fmap_Some by reflexivity. reflexivity.
Qed.

End Barrier.

(** X12: with the system metrics collected, [GET /api/status] replies exactly
    when every probe has settled; while one is outstanding no reply is sent,
    and the reply, once sent, is a snapshot with one status per target. *)
Theorem api_status_waits_for_all (services : object) (os : Os) (startTime : Z)
    (net : Network) (order : list nat) (now : Z) (systemMetrics : SystemMetrics) :
  getSystemMetrics os = Ok systemMetrics ->
  ((forall i, (i < length services)%nat -> i ∈ order) ->
     exists snapshot,
       api_status services os startTime net order now = Some (Json 200 snapshot)
       /\ length (Dashboard.services snapshot) = length services)
  /\ (forall i, (i < length services)%nat -> i ∉ order ->
        api_status services os startTime net order now = None).
Proof.
  intros Hm. unfold api_status. rewrite Hm.
  destruct (probes_settle services startTime net) as (checks & -> & Hlen & _).
  split.
  - intros Hall. rewrite Promise_all_covered by (rewrite Hlen; exact Hall).
    eexists. split; [reflexivity|exact Hlen].
  - intros i Hi Hnin.
    rewrite (Promise_all_pending checks order i) by (rewrite ?Hlen; assumption).
    reflexivity.
Qed.

Lemma api_status_waits_for_all_witness :
  (exists systemMetrics, getSystemMetrics server = Ok systemMetrics)
  /\ api_status SERVICES server 1000 allUp [2; 0; 3]%nat 1010 = None.
Proof.
  split; [eexists; reflexivity|].
  refine (proj2 (api_status_waits_for_all SERVICES server 1000 allUp [2; 0; 3]%nat
                   1010 _ eq_refl) 1%nat _ _).
  - simpl. lia.
  - intros H. repeat (apply elem_of_cons in H as [H|H]; [discriminate|]).
    inversion H.
Defined.

(** X13: [GET /api/health/:service] for any table of services: a target
    configured with a non-empty URL is probed and answered with its status;
    a target configured with the empty URL and a name that is neither
    configured nor a member of [Object.prototype] are answered 404 without
    a probe; a name that is only such a member ends in a rejection. *)
Theorem api_health_cases (services : object) (service : string) (startTime : Z)
    (x : Exchange) :
  match own services service with
  | Some u =>
      if String.eqb u ""
      then api_health services service startTime x
           = (JsonError 404 "Service not found", [])
      else exists s sent,
             checkService service (Str u) startTime x = (Ok s, sent)
             /\ api_health services service startTime x = (Json 200 s, sent)
  | None =>
      if existsb (String.eqb service) objectPrototypeKeys
      then api_health services service startTime x
           = (Unhandled "url.replace is not a function", [Inherited service])
      else api_health services service startTime x
           = (JsonError 404 "Service not found", [])
  end.
Proof.
  unfold api_health, get.
  destruct (own services service) as [u|].
  - simpl truthy. destruct (String.eqb u ""); simpl negb; cbv iota; [reflexivity|].
    destruct (checkService_settles service startTime x u) as (s & sent & Hs & _).
    rewrite Hs. eauto.
  - destruct (existsb (String.eqb service) objectPrototypeKeys); [|reflexivity].
    simpl. unfold checkService. simpl. unfold bind.
    destruct (axios_get x); reflexivity.
Qed.

(** Opens [getSystemMetrics os = Ok sm] into the record it returns. *)
Ltac metrics_returned H :=
  unfold getSystemMetrics, bind in H;
  match type of H with
  | context [statfsSync ?os ?path] => destruct (statfsSync os path); [|discriminate]
  end;
  injection H as <-.

Section Gauges.

Lemma floor_half (a : Z) : Qfloor (inject_Z a + (1 # 2)) = a.
Proof.
  unfold Qfloor, Qplus, inject_Z. cbn [Qnum Qden].
  change (Z.pos (1 * 2)) with 2.
  symmetry. apply (Z.div_unique_pos _ _ _ 1); lia.
Qed.

Lemma toFixed1_le (q : Q) (k : Z) : (q <= inject_Z k)%Q -> toFixed1 q <= 10 * k.
Proof.
  intros H. unfold toFixed1.
  assert (Hq : (q * 10 + (1 # 2) <= inject_Z (10 * k) + (1 # 2))%Q).
  { apply Qplus_le_l. rewrite inject_Z_mult.
    rewrite (Qmult_comm (inject_Z 10)). apply Qmult_le_compat_r; [exact H|discriminate]. }
  apply Qfloor_resp_le in Hq.
  rewrite floor_half in Hq. exact Hq.
Qed.

Lemma toFixed1_ge (q : Q) (k : Z) : (inject_Z k <= q)%Q -> 10 * k <= toFixed1 q.
Proof.
  intros H. unfold toFixed1.
  assert (Hq : (inject_Z (10 * k) + (1 # 2) <= q * 10 + (1 # 2))%Q).
  { apply Qplus_le_l. rewrite inject_Z_mult.
    rewrite (Qmult_comm (inject_Z 10)). apply Qmult_le_compat_r; [exact H|discriminate]. }
  apply Qfloor_resp_le in Hq.
  rewrite floor_half in Hq. exact Hq.
Qed.

End Gauges.

Section Processors.

Lemma fold_addNaN_None (cpus : list CpuTimes) :
  fold_left (fun acc c => addNaN acc (busyPercent c)) cpus None = None.
Proof. induction cpus as [|c cpus IH]; [reflexivity|exact IH]. Qed.

(** The sum of the busy shares is [NaN] exactly when one of them is. *)
Lemma fold_addNaN_Some (cpus : list CpuTimes) (a : Q) :
  fold_left (fun acc c => addNaN acc (busyPercent c)) cpus (Some a) = None
  <-> exists c, c ∈ cpus /\ busyPercent c = None.
Proof.
  revert a. induction cpus as [|c cpus IH]; intros a; simpl.
  - split; [discriminate|]. intros (c & Hin & _). inversion Hin.
  - destruct (busyPercent c) as [b|] eqn:Hb; simpl.
    + rewrite IH. split.
      * intros (c' & Hin & Hc'). exists c'. split; [right; exact Hin|exact Hc'].
      * intros (c' & Hin & Hc'). apply elem_of_cons in Hin as [->|Hin];
          [congruence|eauto].
    + rewrite fold_addNaN_None. split; [|reflexivity].
      intros _. exists c. split; [left|exact Hb].
Qed.

Lemma busyPercent_None (c : CpuTimes) :
  busyPercent c = None <-> (user c + nice c + sys c + idle c + irq c = 0)%N.
Proof.
  unfold busyPercent.
  destruct (N.eqb_spec (user c + nice c + sys c + idle c + irq c) 0);
    split; intros H; try discriminate; try reflexivity; try assumption.
  contradiction.
Qed.

End Processors.

(** X14: the health badge and the progress bars of the page on memory and
    CPU, for a host that reports consistent memory figures.  The CPU figure
    is [NaN] exactly when the processor list is empty or holds a processor
    whose times are all zero; its bar is then red although CPU plays no
    part in the badge.  Otherwise badge and bars agree: with a healthy badge
    both figures shown are at most 70.0 and neither bar is red; with a
    critical badge the memory shown is above 90.0 or the CPU shown is at
    least 90.0, and that bar is red. *)
Theorem health_agrees_with_bars (os : Os) (sm : SystemMetrics) :
  getSystemMetrics os = Ok sm ->
  0 < os_totalmem os -> 0 <= os_freemem os <= os_totalmem os ->
  (cpu sm = NaN <->
     os_cpus os = []
     \/ exists c, c ∈ os_cpus os
                  /\ (user c + nice c + sys c + idle c + irq c = 0)%N)
  /\ (cpu sm = NaN ->
      cpuBar sm = red /\ (health sm = healthy <-> percent (memory sm) <= 700))
  /\ (health sm = healthy ->
      percent (memory sm) <= 700 /\ memoryBar sm <> red
      /\ forall c, cpu sm = Int c -> c <= 700 /\ cpuBar sm <> red)
  /\ (health sm = critical ->
      (900 < percent (memory sm) /\ memoryBar sm = red)
      \/ (exists c, cpu sm = Int c /\ 900 <= c /\ cpuBar sm = red)).
Proof.
  intros H _ _. metrics_returned H. unfold memoryBar, cpuBar.
  cbn [health percent memory cpu].
  match goal with
  | |- context [?p >? 900] => set (memPercent := p)
  end.
  destruct (fold_left _ (os_cpus os) (Some 0%Q)) as [sum|] eqn:Hsum.
  - destruct (decide (length (os_cpus os) = 0%nat)) as [Hlen|Hlen].
    + (* no processor *)
      split; [|split; [|split]].
      * split; [intros _; left; now apply length_zero_iff_nil|reflexivity].
      * intros _. split; [reflexivity|]. simpl. rewrite !orb_false_r.
        destruct (Z.gtb_spec memPercent 900), (Z.gtb_spec memPercent 700);
          split; intros Hh; try discriminate; try reflexivity; lia.
      * simpl. rewrite !orb_false_r.
        destruct (Z.gtb_spec memPercent 900), (Z.gtb_spec memPercent 700);
          intros Hh; try discriminate.
        split; [lia|]. split; [|intros c [=]].
        destruct (Z.ltb_spec memPercent 700); [discriminate|].
        destruct (Z.ltb_spec memPercent 900); [discriminate|lia].
      * simpl. rewrite !orb_false_r.
        destruct (Z.gtb_spec memPercent 900), (Z.gtb_spec memPercent 700);
          intros Hh; try discriminate; left; (split; [lia|]);
          destruct (Z.ltb_spec memPercent 700); try lia;
          destruct (Z.ltb_spec memPercent 900); try lia; reflexivity.
    + (* a number *)
      set (cpuUsage := (sum / inject_Z (Z.of_nat (length (os_cpus os))))%Q).
      assert (H70 : Qle_bool cpuUsage 70 = true -> toFixed1 cpuUsage <= 700).
      { intros Hle. apply Qle_bool_iff in Hle. exact (toFixed1_le cpuUsage 70 Hle). }
      assert (H90 : Qle_bool cpuUsage 90 = false -> 900 <= toFixed1 cpuUsage).
      { intros Hgt. apply (toFixed1_ge cpuUsage 90).
        destruct (Qlt_le_dec 90 cpuUsage) as [Hlt|Hle]; [apply Qlt_le_weak, Hlt|].
        apply Qle_bool_iff in Hle. congruence. }
      split; [|split; [|split]].
      * split; [discriminate|]. intros [Hnil|Hzero].
        -- rewrite Hnil in Hlen. contradiction.
        -- exfalso. destruct Hzero as (c & Hin & Hc).
           assert (Hn : fold_left (fun acc c => addNaN acc (busyPercent c))
                          (os_cpus os) (Some 0%Q) = None).
           { apply fold_addNaN_Some. exists c. split; [exact Hin|].
             now apply busyPercent_None. }
           congruence.
      * discriminate.
      * unfold above.
        destruct (Z.gtb_spec memPercent 900), (Qle_bool cpuUsage 90) eqn:Hc9;
          simpl; try discriminate;
          destruct (Z.gtb_spec memPercent 700), (Qle_bool cpuUsage 70) eqn:Hc7;
          simpl; intros Hh; try discriminate.
        specialize (H70 eq_refl).
        split; [lia|]. split.
        -- destruct (Z.ltb_spec memPercent 700); [discriminate|].
           destruct (Z.ltb_spec memPercent 900); [discriminate|lia].
        -- intros c [= <-]. split; [exact H70|].
           destruct (Z.ltb_spec (toFixed1 cpuUsage) 500); [discriminate|].
           destruct (Z.ltb_spec (toFixed1 cpuUsage) 800); [discriminate|lia].
      * unfold above.
        destruct (Z.gtb_spec memPercent 900) as [Hm|Hm].
        -- intros _. left. split; [lia|].
           destruct (Z.ltb_spec memPercent 700); [lia|].
           destruct (Z.ltb_spec memPercent 900); [lia|reflexivity].
        -- destruct (Qle_bool cpuUsage 90) eqn:Hc9; simpl.
           ++ destruct ((memPercent >? 700) || negb (Qle_bool cpuUsage 70));
                discriminate.
           ++ intros _. right. specialize (H90 eq_refl).
              exists (toFixed1 cpuUsage). split; [reflexivity|]. split; [exact H90|].
              destruct (Z.ltb_spec (toFixed1 cpuUsage) 500); [lia|].
              destruct (Z.ltb_spec (toFixed1 cpuUsage) 800); [lia|reflexivity].
  - (* a processor with all times zero *)
    split; [|split; [|split]].
    + split; [|reflexivity]. intros _. right.
      apply fold_addNaN_Some in Hsum as (c & Hin & Hc).
      exists c. split; [exact Hin|now apply busyPercent_None].
    + intros _. split; [reflexivity|]. simpl. rewrite !orb_false_r.
      destruct (Z.gtb_spec memPercent 900), (Z.gtb_spec memPercent 700);
        split; intros Hh; try discriminate; try reflexivity; lia.
    + simpl. rewrite !orb_false_r.
      destruct (Z.gtb_spec memPercent 900), (Z.gtb_spec memPercent 700);
        intros Hh; try discriminate.
      split; [lia|]. split; [|intros c [=]].
      destruct (Z.ltb_spec memPercent 700); [discriminate|].
      destruct (Z.ltb_spec memPercent 900); [discriminate|lia].
    + simpl. rewrite !orb_false_r.
      destruct (Z.gtb_spec memPercent 900), (Z.gtb_spec memPercent 700);
        intros Hh; try discriminate; left; (split; [lia|]);
        destruct (Z.ltb_spec memPercent 700); try lia;
        destruct (Z.ltb_spec memPercent 900); try lia; reflexivity.
Qed.

Lemma health_agrees_with_bars_witness :
  0 < os_totalmem serverNoCpus
  /\ 0 <= os_freemem serverNoCpus <= os_totalmem serverNoCpus
  /\ exists sm,
       getSystemMetrics serverNoCpus = Ok sm
       /\ cpu sm = NaN /\ cpuBar sm = red /\ health sm = healthy.
Proof.
  assert (H1 : 0 < os_totalmem serverNoCpus) by reflexivity.
  assert (H2 : 0 <= os_freemem serverNoCpus <= os_totalmem serverNoCpus)
    by (split; discriminate).
  split; [exact H1|]. split; [exact H2|].
  eexists. split; [reflexivity|].
  destruct (health_agrees_with_bars serverNoCpus _ eq_refl H1 H2)
    as (Hnan & Hred & _ & _).
  assert (Hc : cpu _ = NaN) by (apply Hnan; left; reflexivity).
  split; [exact Hc|]. split; [exact (proj1 (Hred Hc))|].
  apply (proj2 (Hred Hc)). discriminate.
Defined.

(** X15: the uptime text splits the whole seconds of uptime into days, hours
    below 24 and minutes below 60, dropping less than a minute. *)
Theorem uptime_text_decomposes (os : Os) (sm : SystemMetrics) :
  getSystemMetrics os = Ok sm ->
  0 <= os_uptime os ->
  exists days hours minutes seconds,
    uptime sm = (show_int days ++ "d " ++ show_int hours ++ "h "
                 ++ show_int minutes ++ "m")%string
    /\ 0 <= days /\ 0 <= hours < 24 /\ 0 <= minutes < 60 /\ 0 <= seconds < 60
    /\ os_uptime os = 86400 * days + 3600 * hours + 60 * minutes + seconds.
Proof.
  intros H Hup. metrics_returned H. cbn [uptime].
  exists (os_uptime os / 86400), (os_uptime os mod 86400 / 3600),
    (os_uptime os mod 3600 / 60), (os_uptime os mod 60).
  split; [reflexivity|].
  generalize dependent (os_uptime os). intros up Hup.
  Z.div_mod_to_equations. lia.
Qed.

Lemma uptime_text_decomposes_witness :
  0 <= os_uptime server
  /\ exists sm,
       getSystemMetrics server = Ok sm
       /\ exists days hours minutes seconds,
            uptime sm = (show_int days ++ "d " ++ show_int hours ++ "h "
                         ++ show_int minutes ++ "m")%string
            /\ os_uptime server = 86400 * days + 3600 * hours + 60 * minutes + seconds.
Proof.
  assert (Hup : 0 <= os_uptime server) by discriminate.
  split; [exact Hup|].
  eexists. split; [reflexivity|].
  destruct (uptime_text_decomposes server _ eq_refl Hup)
    as (d & h & mi & sec & Hu & _ & _ & _ & _ & Heq).
  exists d, h, mi, sec. split; assumption.
Defined.

Section Percentages.

Lemma used_ratio (t f : Z) :
  0 < t ->
  ((GiB t - GiB f) / GiB t * 100 == inject_Z (100 * (t - f)) / inject_Z t)%Q.
Proof.
  intros Ht. unfold GiB.
  assert (Hnz : ~ (inject_Z t == 0)%Q) by (unfold Qeq, inject_Z; simpl; lia).
  rewrite inject_Z_mult. unfold Zminus. rewrite inject_Z_plus, inject_Z_opp.
  field. exact Hnz.
Qed.

Lemma ratio_bounds (n d : Z) :
  0 < d -> 0 <= n <= 100 * d ->
  (inject_Z 0 <= inject_Z n / inject_Z d)%Q
  /\ (inject_Z n / inject_Z d <= inject_Z 100)%Q.
Proof.
  intros Hd Hn.
  assert (Hpos : (0 < inject_Z d)%Q) by (unfold Qlt, inject_Z; simpl; lia).
  split.
  - apply Qle_shift_div_l; [exact Hpos|].
    rewrite Qmult_0_l. unfold Qle, inject_Z; simpl. lia.
  - apply Qle_shift_div_r; [exact Hpos|].
    rewrite <- inject_Z_mult. unfold Qle, inject_Z; simpl. lia.
Qed.

(** The percentage of [t - f] in [t], as [toFixed(1)] prints it. *)
Lemma percent_in_range (t f : Z) :
  0 < t -> 0 <= f <= t ->
  0 <= toFixed1 ((GiB t - GiB f) / GiB t * 100) <= 1000.
Proof.
  intros Ht Hf.
  assert (E : toFixed1 ((GiB t - GiB f) / GiB t * 100)
              = toFixed1 (inject_Z (100 * (t - f)) / inject_Z t)).
  { unfold toFixed1. apply Qfloor_comp. rewrite used_ratio by assumption. reflexivity. }
  rewrite E.
  destruct (ratio_bounds (100 * (t - f)) t Ht) as [Hlo Hhi]; [lia|].
  split.
  - exact (toFixed1_ge _ 0 Hlo).
  - exact (toFixed1_le _ 100 Hhi).
Qed.

End Percentages.

(** X16: the memory and disk percentages sent to the page lie between 0.0
    and 100.0 whenever the operating system reports consistent figures (free
    at most total, total positive), so the bars drawn from them never
    overflow. *)
Theorem percentages_in_range (os : Os) (sm : SystemMetrics) (stats : StatFs) :
  getSystemMetrics os = Ok sm ->
  statfsSync os (if String.eqb (os_platform os) "darwin"
                 then "/System/Volumes/Data" else "/")%string = Ok stats ->
  0 < os_totalmem os -> 0 <= os_freemem os <= os_totalmem os ->
  0 < bsize stats -> 0 < blocks stats -> 0 <= bfree stats <= blocks stats ->
  0 <= percent (memory sm) <= 1000 /\ 0 <= percent (disk sm) <= 1000.
Proof.
  intros H Hs Ht Hf Hb Hk Hr.
  unfold getSystemMetrics, bind in H. rewrite Hs in H. injection H as <-.
  cbn [percent memory disk]. split.
  - apply percent_in_range; assumption.
  - apply percent_in_range; nia.
Qed.

Lemma percentages_in_range_witness :
  exists sm,
    getSystemMetrics server = Ok sm
    /\ 0 <= percent (memory sm) <= 1000 /\ 0 <= percent (disk sm) <= 1000.
Proof.
  eexists. split; [reflexivity|].
  apply (percentages_in_range server _
           {| blocks := 1000000; bsize := 4096; bfree := 400000 |});
    try reflexivity; split; discriminate.
Defined.

(** X17: [POST /api/kimi/analyze], for a request whose body is a JSON object,
    never answers with a server error.  Without a tool name (absent or
    empty) it answers 400 and posts nothing; with one
    it posts the tool with its parameters once and answers 200 whatever the
    analysis service does: the result reports success exactly for a 2xx
    reply with a body, and carries the error message otherwise. *)
Theorem kimi_analyze_replies (tool : option string) (o : PostOutcome) :
  match tool with
  | None => api_kimi_analyze tool o = (JsonError 400 "Tool name is required", [])
  | Some t =>
      if String.eqb t ""
      then api_kimi_analyze tool o = (JsonError 400 "Tool name is required", [])
      else exists result,
             api_kimi_analyze tool o
             = (Json 200 result,
                [ {| x_tool := t; x_parameters := getAnalysisParameters t;
                     x_model := "llama3.2" |} ])
             /\ (succeeded result = true <->
                 exists code data,
                   o = PostResponse code (Some data) /\ 200 <= code < 300)
             /\ (forall message, axios_post o = Throw message ->
                   result = AnalysisFailed message)
  end.
Proof.
  destruct tool as [t|]; [|reflexivity]. unfold api_kimi_analyze.
  destruct (String.eqb t ""); [reflexivity|].
  unfold runKimiAnalysis, bind. eexists. split; [reflexivity|].
  destruct o as [message|code data|]; simpl.
  - split; [|intros ? [= <-]; reflexivity].
    split; [discriminate|intros (c & d & [=] & _)].
  - destruct (Z.leb_spec 200 code), (Z.ltb_spec code 300); simpl.
    + destruct data as [d|]; simpl.
      * split; [|discriminate]. split; [intros _; exists code, d; split; [reflexivity|lia]|reflexivity].
      * split; [|discriminate]. split; [discriminate|intros (c & d & [=] & _)].
    + split; [|intros ? [= <-]; reflexivity].
      split; [discriminate|intros (c & d & [= <- _] & Hc); lia].
    + split; [|intros ? [= <-]; reflexivity].
      split; [discriminate|intros (c & d & [= <- _] & Hc); lia].
    + split; [|intros ? [= <-]; reflexivity].
      split; [discriminate|intros (c & d & [= <- _] & Hc); lia].
  - split; [|intros ? [= <-]; reflexivity].
    split; [discriminate|intros (c & d & [=] & _)].
Qed.

End DashboardExtras.
